(** * Keyspace-aware metrics registration (util/metricsutil/common.go)

    A shallow embedding of [RegisterMetrics], [RegisterMetricsForBR],
    [registerMetrics] and [getKeyspaceMeta], with the PD client, the retry
    helper and the subsystem initializers as explicit effects: every
    function is a computation over a [World] that also emits the ordered
    list of [Event]s it performed. *)

From Stdlib Require Import ZArith NArith List String Ascii Bool Lia.
From Stdlib Require Import DecimalString DecimalN.
Import ListNotations.

Local Open Scope string_scope.
Local Open Scope Z_scope.
Local Open Scope list_scope.

(** ** Go values *)

(** [keyspacepb.KeyspaceMeta]: the only field this package consumes is the
    numeric identifier (a uint32 in the protobuf message). *)
Record KeyspaceMeta : Type := mkKeyspaceMeta { Id : N }.

(** The generated getter, as called on the non-nil pointer of line 101. *)
Definition GetId (m : KeyspaceMeta) : N := Id m.

(** [fmt.Sprint] of an unsigned integer prints it in base ten. *)
Definition fmt_Sprint (u : N) : string :=
  NilZero.string_of_uint (N.to_uint u).

(** Reading a base-ten numeral back, used to state what [fmt_Sprint] means. *)
Definition decimal_value (s : string) : option N :=
  option_map N.of_uint (NilZero.uint_of_string s).

(** [int64] wrap-around, for [time.Duration] arithmetic. *)
Definition wrap_int64 (z : Z) : Z :=
  (z + 2 ^ 63) mod 2 ^ 64 - 2 ^ 63.

Definition time_Second : Z := 1000000000.

(** ** [strings.ToLower] *)

Module strings.

Definition isASCIIbyte (c : ascii) : bool := (nat_of_ascii c <? 128)%nat.

Definition isUpperByte (c : ascii) : bool :=
  ((65 <=? nat_of_ascii c) && (nat_of_ascii c <=? 90))%nat.

Definition lowerByte (c : ascii) : ascii :=
  if isUpperByte c then ascii_of_nat (nat_of_ascii c + 32) else c.

Fixpoint isASCII (s : string) : bool :=
  match s with
  | EmptyString => true
  | String c s' => isASCIIbyte c && isASCII s'
  end.

Fixpoint hasUpper (s : string) : bool :=
  match s with
  | EmptyString => false
  | String c s' => isUpperByte c || hasUpper s'
  end.

Fixpoint lowerBytes (s : string) : string :=
  match s with
  | EmptyString => EmptyString
  | String c s' => String (lowerByte c) (lowerBytes s')
  end.

(** The ASCII fast path is the library's own; for a string with a byte
    above 0x7F the library maps [unicode.ToLower] over the runes, which is
    taken as the parameter [mapUnicodeLower]. *)
Definition ToLower (mapUnicodeLower : string -> string) (s : string) : string :=
  if isASCII s
  then (if hasUpper s then lowerBytes s else s)
  else mapUnicodeLower s.

End strings.

(** ** Process configuration (the fields read from [config.GetGlobalConfig]) *)

Record Security : Type := mkSecurity {
  ClusterSSLCA : string;
  ClusterSSLCert : string;
  ClusterSSLKey : string
}.

Record PDClient : Type := mkPDClient { PDServerTimeout : Z }.

Record Config : Type := mkConfig {
  KeyspaceName : string;
  Store : string;
  Path : string;
  PDClientCfg : PDClient;
  SecurityCfg : Security
}.

(** [pd.SecurityOption] *)
Record SecurityOption : Type := mkSecurityOption {
  CAPath : string;
  CertPath : string;
  KeyPath : string
}.

Definition emptySecurityOption : SecurityOption := mkSecurityOption "" "" "".

(** ** Subsystem initializers, in the order [registerMetrics] calls them *)

Inductive Initializer : Type :=
| metrics_InitMetrics
| metrics_RegisterMetrics
| copr_InitMetricsVars
| domain_InitMetricsVars
| executor_InitMetricsVars
| infoschema_InitMetricsVars
| isolation_InitMetricsVars
| plannercore_InitMetricsVars
| server_InitMetricsVars
| session_InitMetricsVars
| statshandler_InitMetricsVars
| topsqlreporter_InitMetricsVars
| ttlmetrics_InitMetricsVars
| txninfo_InitMetricsVars
| unimetrics_RegisterMetrics.

Definition Initializer_eqb (a b : Initializer) : bool :=
  match a, b with
  | metrics_InitMetrics, metrics_InitMetrics
  | metrics_RegisterMetrics, metrics_RegisterMetrics
  | copr_InitMetricsVars, copr_InitMetricsVars
  | domain_InitMetricsVars, domain_InitMetricsVars
  | executor_InitMetricsVars, executor_InitMetricsVars
  | infoschema_InitMetricsVars, infoschema_InitMetricsVars
  | isolation_InitMetricsVars, isolation_InitMetricsVars
  | plannercore_InitMetricsVars, plannercore_InitMetricsVars
  | server_InitMetricsVars, server_InitMetricsVars
  | session_InitMetricsVars, session_InitMetricsVars
  | statshandler_InitMetricsVars, statshandler_InitMetricsVars
  | topsqlreporter_InitMetricsVars, topsqlreporter_InitMetricsVars
  | ttlmetrics_InitMetricsVars, ttlmetrics_InitMetricsVars
  | txninfo_InitMetricsVars, txninfo_InitMetricsVars
  | unimetrics_RegisterMetrics, unimetrics_RegisterMetrics => true
  | _, _ => false
  end.

(** ** External collaborators

    Everything the file calls but does not define: the PD client library
    (an interface in the source), the error classifiers of the [store]
    package, the keyspace-name predicate, the path parser, and the two
    constants of the retry helper. [PD] is the state of the metadata
    service as the client library sees it; each client call is a
    transition on it. *)
Class Collaborators : Type := {
  Error : Type;
  PD : Type;
  Client : Type;
  pd_NewClient :
    list string -> SecurityOption -> Z -> PD -> (Client + Error) * PD;
  pd_LoadKeyspace :
    Client -> string -> PD -> (option KeyspaceMeta * option Error) * PD;
  pd_Close : Client -> PD -> PD;
  IsNotBootstrappedError : option Error -> bool;
  IsKeyspaceNotExistError : option Error -> bool;
  IsKeyspaceNameEmpty : string -> bool;
  ParsePath : string -> list string * bool * string * option Error;
  mapUnicodeLower : string -> string;
  DefaultMaxRetries : Z;
  RetryInterval : Z
}.

Section Effects.

Context `{C : Collaborators}.

(** ** Effects *)

Inductive Event : Type :=
| EvNewClient (addrs : list string) (sec : SecurityOption) (timeout : Z)
              (res : Client + Error)
| EvLoadKeyspace (cli : Client) (name : string)
                 (meta : option KeyspaceMeta) (err : option Error)
| EvSleep (interval : Z)
| EvClose (cli : Client)
| EvSetKeyspaceLabels (value : string)
| EvInit (i : Initializer) (label : option string).

Record World : Type := mkWorld {
  pd_state : PD;
  global_config : Config;
  keyspace_label : option string
}.

Definition set_pd (p : PD) (w : World) : World :=
  mkWorld p (global_config w) (keyspace_label w).

Definition set_label (l : option string) (w : World) : World :=
  mkWorld (pd_state w) (global_config w) l.

Definition set_config (c : Config) (w : World) : World :=
  mkWorld (pd_state w) c (keyspace_label w).

(** A computation returns its value, the world it leaves and the events it
    performed, oldest first. *)
Definition M (A : Type) : Type := World -> A * World * list Event.

Definition result {A} (r : A * World * list Event) : A := fst (fst r).
Definition final {A} (r : A * World * list Event) : World := snd (fst r).
Definition events {A} (r : A * World * list Event) : list Event := snd r.

Definition ret {A} (a : A) : M A := fun w => (a, w, []).

Definition bind {A B} (m : M A) (k : A -> M B) : M B :=
  fun w =>
    let r1 := m w in
    let r2 := k (result r1) (final r1) in
    (result r2, final r2, events r1 ++ events r2).

Definition emit (e : Event) : M unit := fun w => (tt, w, [e]).

End Effects.

Declare Scope go_scope.
Delimit Scope go_scope with go.
Notation "x <- m ;; k" := (bind m (fun x => k))
  (at level 61, m at next level, right associativity) : go_scope.
Notation "m ;; k" := (bind m (fun _ => k))
  (at level 61, right associativity) : go_scope.

Local Open Scope go_scope.

Section Metricsutil.

Context `{C : Collaborators}.

(** ** Primitive operations *)

(** [config.GetGlobalConfig()] *)
Definition GetGlobalConfig : M Config :=
  fun w => (global_config w, w, []).

(** [pd.NewClient(addrs, sec, pd.WithCustomTimeoutOption(timeout))] *)
Definition NewClient (addrs : list string) (sec : SecurityOption)
    (timeout : Z) : M (Client + Error) :=
  fun w =>
    let r := pd_NewClient addrs sec timeout (pd_state w) in
    (fst r, set_pd (snd r) w, [EvNewClient addrs sec timeout (fst r)]).

(** [pdCli.LoadKeyspace(context.TODO(), name)] *)
Definition LoadKeyspace (pdCli : Client) (name : string)
    : M (option KeyspaceMeta * option Error) :=
  fun w =>
    let r := pd_LoadKeyspace pdCli name (pd_state w) in
    (fst r, set_pd (snd r) w,
     [EvLoadKeyspace pdCli name (fst (fst r)) (snd (fst r))]).

(** [pdCli.Close()] *)
Definition Close (pdCli : Client) : M unit :=
  fun w => (tt, set_pd (pd_Close pdCli (pd_state w)) w, [EvClose pdCli]).

(** [time.Sleep] *)
Definition time_Sleep (d : Z) : M unit := emit (EvSleep d).

(** [defer d] followed by the rest of the function body: the body's return
    value is computed first, then [d] runs, then the function returns. *)
Definition defer {A} (d : M unit) (body : M A) : M A :=
  a <- body ;; d ;; ret a.

(** Modelled from the spec: [metrics.SetKeyspaceLabels], of the [metrics]
    package, is not part of this file. It attaches a constant keyspace
    label to every metric instrument created from then on. *)
Definition SetKeyspaceLabels (value : string) : M unit :=
  fun w => (tt, set_label (Some value) w, [EvSetKeyspaceLabels value]).

(** Modelled from the spec: the subsystem initializers are not part of this
    file. Each one creates its instruments, which bake in the constant
    label in force at that moment; they return nothing and touch neither
    the PD client nor the configuration. *)
Definition run (i : Initializer) : M unit :=
  fun w => (tt, w, [EvInit i (keyspace_label w)]).

Definition is_nil {A} (o : option A) : bool :=
  match o with None => true | Some _ => false end.

(** Modelled from the spec: [util.RunWithRetry], of the [util] package, is
    not part of this file. It runs [f] up to [retryCnt] times, waiting a
    fixed interval between two attempts; it stops at the first attempt
    that succeeds or whose failure [f] does not flag as retryable, and
    reports the error of the last attempt made. [f] is a closure: the
    variable it captures and assigns is threaded as [v]. *)
Fixpoint retry_loop {V} (n : nat) (backoff : Z)
    (f : V -> M (bool * option Error * V))
    (err : option Error) (v : V) : M (option Error * V) :=
  match n with
  | O => ret (err, v)
  | S n' =>
      r <- f v ;;
      let retryAble := fst (fst r) in
      let err' := snd (fst r) in
      if is_nil err' || negb retryAble then ret (err', snd r)
      else
        (match n' with O => ret tt | S _ => time_Sleep backoff end) ;;
        retry_loop n' backoff f err' (snd r)
  end.

(** Modelled from the spec: the entry of [util.RunWithRetry]; a count that
    is not positive leaves no attempt to make. *)
Definition RunWithRetry {V} (retryCnt : Z) (backoff : Z)
    (f : V -> M (bool * option Error * V)) (v : V) : M (option Error * V) :=
  retry_loop (Z.to_nat retryCnt) backoff f None v.

(** ** The functions of common.go *)

(** The closure of lines 129-138; [keyspaceMeta] is the captured variable,
    overwritten by every call. *)
Definition loadOnce (pdCli : Client) (keyspaceName : string)
    (keyspaceMeta : option KeyspaceMeta)
    : M (bool * option Error * option KeyspaceMeta) :=
  r <- LoadKeyspace pdCli keyspaceName ;;
  let keyspaceMeta := fst r in
  let errInner := snd r in
  if IsNotBootstrappedError errInner || IsKeyspaceNotExistError errInner
  then ret (true, errInner, keyspaceMeta)
  else ret (false, errInner, keyspaceMeta).

Definition getKeyspaceMeta (pdCli : Client) (keyspaceName : string)
    : M (option KeyspaceMeta * option Error) :=
  r <- RunWithRetry DefaultMaxRetries RetryInterval
         (loadOnce pdCli keyspaceName) None ;;
  match fst r with
  | Some e => ret (None, Some e)
  | None => ret (snd r, None)
  end.

Definition registerMetrics (keyspaceMeta : option KeyspaceMeta)
    : M (option Error) :=
  match keyspaceMeta with
  | Some m => SetKeyspaceLabels (fmt_Sprint (GetId m))
  | None => ret tt
  end ;;
  run metrics_InitMetrics ;;
  run metrics_RegisterMetrics ;;
  run copr_InitMetricsVars ;;
  run domain_InitMetricsVars ;;
  run executor_InitMetricsVars ;;
  run infoschema_InitMetricsVars ;;
  run isolation_InitMetricsVars ;;
  run plannercore_InitMetricsVars ;;
  run server_InitMetricsVars ;;
  run session_InitMetricsVars ;;
  run statshandler_InitMetricsVars ;;
  run topsqlreporter_InitMetricsVars ;;
  run ttlmetrics_InitMetricsVars ;;
  run txninfo_InitMetricsVars ;;
  cfg <- GetGlobalConfig ;;
  (if String.eqb (Store cfg) "unistore"
   then run unimetrics_RegisterMetrics
   else ret tt) ;;
  ret None.

Definition RegisterMetrics : M (option Error) :=
  cfg <- GetGlobalConfig ;;
  if IsKeyspaceNameEmpty (KeyspaceName cfg)
     || negb (String.eqb (strings.ToLower mapUnicodeLower (Store cfg)) "tikv")
  then registerMetrics None
  else
    let '(pdAddrs, _, _, err) := ParsePath ("tikv://" ++ Path cfg)%string in
    match err with
    | Some e => ret (Some e)
    | None =>
        let timeoutSec :=
          wrap_int64 (wrap_int64 (PDServerTimeout (PDClientCfg cfg))
                      * time_Second) in
        c <- NewClient pdAddrs
               (mkSecurityOption (ClusterSSLCA (SecurityCfg cfg))
                                 (ClusterSSLCert (SecurityCfg cfg))
                                 (ClusterSSLKey (SecurityCfg cfg)))
               timeoutSec ;;
        match c with
        | inr e => ret (Some e)
        | inl pdCli =>
            defer (Close pdCli)
              (r <- getKeyspaceMeta pdCli (KeyspaceName cfg) ;;
               match snd r with
               | Some e => ret (Some e)
               | None => registerMetrics (fst r)
               end)
        end
    end.

Definition RegisterMetricsForBR (pdAddrs : list string)
    (keyspaceName : string) : M (option Error) :=
  if IsKeyspaceNameEmpty keyspaceName
  then registerMetrics None
  else
    let timeoutSec := wrap_int64 (10 * time_Second) in
    c <- NewClient pdAddrs emptySecurityOption timeoutSec ;;
    match c with
    | inr e => ret (Some e)
    | inl pdCli =>
        defer (Close pdCli)
          (r <- getKeyspaceMeta pdCli keyspaceName ;;
           match snd r with
           | Some e => ret (Some e)
           | None => registerMetrics (fst r)
           end)
    end.

End Metricsutil.

(** ** A scripted metadata service

    A concrete set of collaborators on which the functions can be run: the
    service answers lookups from a script, one reply per call, and reports
    "not bootstrapped" once the script is used up. *)

Module Scripted.

Definition reply : Type := (option KeyspaceMeta * option string)%type.

Definition errNotBootstrapped : string := "not bootstrapped".
Definition errKeyspaceNotExist : string := "keyspace does not exist".
Definition errTransport : string := "transport is closing".

Definition error_is (msg : string) (e : option string) : bool :=
  match e with
  | Some s => String.eqb s msg
  | None => false
  end.

Definition newClient (addrs : list string) (_ : SecurityOption) (_ : Z)
    (p : list reply) : (nat + string) * list reply :=
  match addrs with
  | [] => (inr "no endpoints", p)
  | _ :: _ => (inl 1%nat, p)
  end.

Definition loadKeyspace (_ : nat) (_ : string) (p : list reply)
    : reply * list reply :=
  match p with
  | [] => ((None, Some errNotBootstrapped), [])
  | r :: p' => (r, p')
  end.

Definition parsePath (s : string)
    : list string * bool * string * option string :=
  match substring 7 (String.length s - 7) s with
  | EmptyString => ([], false, "", Some "empty path")
  | addr => ([addr], false, "", None)
  end.

#[local] Instance collab : Collaborators := {|
  Error := string;
  PD := list reply;
  Client := nat;
  pd_NewClient := newClient;
  pd_LoadKeyspace := loadKeyspace;
  pd_Close := fun _ p => p;
  IsNotBootstrappedError := error_is errNotBootstrapped;
  IsKeyspaceNotExistError := error_is errKeyspaceNotExist;
  IsKeyspaceNameEmpty := fun s => String.eqb s "";
  ParsePath := parsePath;
  mapUnicodeLower := fun s => s;
  DefaultMaxRetries := 3;
  RetryInterval := 500
|}.

Definition config (name store : string) : Config :=
  mkConfig name store "pd0:2379" (mkPDClient 3) (mkSecurity "" "" "").

Definition world (script : list reply) (name store : string) : World :=
  mkWorld script (config name store) None.

Definition found (id : N) : reply := (Some (mkKeyspaceMeta id), None).
Definition failed (msg : string) : reply := (None, Some msg).

End Scripted.

(** ** Vocabulary of the properties *)

Section Vocabulary.

Context `{C : Collaborators}.

(** The two failures the resolver is allowed to retry on. *)
Definition retryable (err : option Error) : bool :=
  IsNotBootstrappedError err || IsKeyspaceNotExistError err.

(** The gate of line 49. *)
Definition skipsResolution (cfg : Config) : bool :=
  IsKeyspaceNameEmpty (KeyspaceName cfg)
  || negb (String.eqb (strings.ToLower mapUnicodeLower (Store cfg)) "tikv").

(** The duration handed to the client by [RegisterMetrics]. *)
Definition configuredTimeout (cfg : Config) : Z :=
  wrap_int64 (wrap_int64 (PDServerTimeout (PDClientCfg cfg)) * time_Second).

Definition configuredSecurity (cfg : Config) : SecurityOption :=
  mkSecurityOption (ClusterSSLCA (SecurityCfg cfg))
                   (ClusterSSLCert (SecurityCfg cfg))
                   (ClusterSSLKey (SecurityCfg cfg)).

Definition parsedAddrs (cfg : Config) : list string :=
  fst (fst (fst (ParsePath ("tikv://" ++ Path cfg)%string))).

Definition parseError (cfg : Config) : option Error :=
  snd (ParsePath ("tikv://" ++ Path cfg)%string).

(** The errors returned by the lookups of a run, oldest first. *)
Definition lookup_errors (es : list Event) : list (option Error) :=
  flat_map (fun e => match e with
                     | EvLoadKeyspace _ _ _ err => [err]
                     | _ => []
                     end) es.

Definition is_lookup (e : Event) : bool :=
  match e with EvLoadKeyspace _ _ _ _ => true | _ => false end.

Definition is_sleep (e : Event) : bool :=
  match e with EvSleep _ => true | _ => false end.

Definition is_new_client (e : Event) : bool :=
  match e with EvNewClient _ _ _ _ => true | _ => false end.

Definition is_close (e : Event) : bool :=
  match e with EvClose _ => true | _ => false end.

Definition is_set_label (e : Event) : bool :=
  match e with EvSetKeyspaceLabels _ => true | _ => false end.

Definition is_init (e : Event) : bool :=
  match e with EvInit _ _ => true | _ => false end.

Definition is_unistore_init (e : Event) : bool :=
  match e with
  | EvInit i _ => Initializer_eqb i unimetrics_RegisterMetrics
  | _ => false
  end.

(** Every event but the run of the unistore-specific initializer. *)
Definition not_unistore_init (e : Event) : bool := negb (is_unistore_init e).

(** An event of the resolver: a lookup or a pause between two lookups. *)
Definition is_resolver_event (e : Event) : bool := is_lookup e || is_sleep e.

(** An event of the registration tail. *)
Definition is_registration (e : Event) : bool := is_set_label e || is_init e.

Definition count (p : Event -> bool) (es : list Event) : nat :=
  List.length (filter p es).

(** The pause the helper inserts before the attempts still to come. *)
Definition pause (n : nat) (backoff : Z) : list Event :=
  match n with O => [] | S _ => [EvSleep backoff] end.

(** The initializers every registration runs. *)
Definition common_initializers : list Initializer :=
  [ metrics_InitMetrics; metrics_RegisterMetrics; copr_InitMetricsVars;
    domain_InitMetricsVars; executor_InitMetricsVars;
    infoschema_InitMetricsVars; isolation_InitMetricsVars;
    plannercore_InitMetricsVars; server_InitMetricsVars;
    session_InitMetricsVars; statshandler_InitMetricsVars;
    topsqlreporter_InitMetricsVars; ttlmetrics_InitMetricsVars;
    txninfo_InitMetricsVars ].

(** What the fan-out of [registerMetrics] emits when the constant label in
    force is [label] and the configured store is [store]. *)
Definition fanout (label : option string) (store : string) : list Event :=
  map (fun i => EvInit i label) common_initializers
  ++ (if String.eqb store "unistore"
      then [EvInit unimetrics_RegisterMetrics label]
      else []).

(** The fatal conditions of [RegisterMetrics] in world [w], with the error
    each one carries. *)
Inductive Fatal (w : World) (e : Error) : Prop :=
| Fatal_parse :
    skipsResolution (global_config w) = false ->
    parseError (global_config w) = Some e ->
    Fatal w e
| Fatal_client p :
    skipsResolution (global_config w) = false ->
    parseError (global_config w) = None ->
    pd_NewClient (parsedAddrs (global_config w))
                 (configuredSecurity (global_config w))
                 (configuredTimeout (global_config w))
                 (pd_state w) = (inr e, p) ->
    Fatal w e
| Fatal_resolve cli p :
    skipsResolution (global_config w) = false ->
    parseError (global_config w) = None ->
    pd_NewClient (parsedAddrs (global_config w))
                 (configuredSecurity (global_config w))
                 (configuredTimeout (global_config w))
                 (pd_state w) = (inl cli, p) ->
    snd (result (getKeyspaceMeta cli (KeyspaceName (global_config w))
                   (set_pd p w))) = Some e ->
    Fatal w e.

(** The fatal conditions of [RegisterMetricsForBR]. *)
Inductive FatalBR (pdAddrs : list string) (name : string) (w : World)
    (e : Error) : Prop :=
| FatalBR_client p :
    IsKeyspaceNameEmpty name = false ->
    pd_NewClient pdAddrs emptySecurityOption (wrap_int64 (10 * time_Second))
                 (pd_state w) = (inr e, p) ->
    FatalBR pdAddrs name w e
| FatalBR_resolve cli p :
    IsKeyspaceNameEmpty name = false ->
    pd_NewClient pdAddrs emptySecurityOption (wrap_int64 (10 * time_Second))
                 (pd_state w) = (inl cli, p) ->
    snd (result (getKeyspaceMeta cli name (set_pd p w))) = Some e ->
    FatalBR pdAddrs name w e.

(** The part both entry points share once a client is open: resolve,
    register, and close the client on the way out. *)
Definition withClient (pdCli : Client) (name : string) : M (option Error) :=
  defer (Close pdCli)
    (r <- getKeyspaceMeta pdCli name ;;
     match snd r with
     | Some e => ret (Some e)
     | None => registerMetrics (fst r)
     end).

End Vocabulary.

Section FurtherVocabulary.

Context `{C : Collaborators}.

(** A configuration with its store replaced. *)
Definition with_store (s : string) (cfg : Config) : Config :=
  mkConfig (KeyspaceName cfg) s (Path cfg) (PDClientCfg cfg)
           (SecurityCfg cfg).

(** From service state [p], [k] lookups in a row fail with one of the two
    retryable errors and leave the service in state [p']. *)
Inductive retryable_failures (pdCli : Client) (name : string)
    : nat -> PD -> PD -> Prop :=
| failures_none p : retryable_failures pdCli name 0 p p
| failures_more k p m e p1 p' :
    pd_LoadKeyspace pdCli name p = ((m, Some e), p1) ->
    retryable (Some e) = true ->
    retryable_failures pdCli name k p1 p' ->
    retryable_failures pdCli name (S k) p p'.

(** An event of the phase before registration: opening the client,
    looking up, pausing. *)
Definition is_resolution_phase (e : Event) : bool :=
  is_new_client e || is_resolver_event e.

(** The four ways a run of an entry point for keyspace [name] can go from
    world [w]: resolution skipped, path not parsed, client not
    constructed, or client constructed and the shared block run. Only
    [RegisterMetrics] has the second. *)
Inductive entry_run (name : string) (w : World)
    : option Error * World * list Event -> Prop :=
| run_skipped :
    entry_run name w (registerMetrics None w)
| run_parse_error e :
    entry_run name w (Some e, w, [])
| run_client_error a s t e p :
    entry_run name w (Some e, set_pd p w, [EvNewClient a s t (inr e)])
| run_with_client a s t c p :
    entry_run name w
      (result (withClient c name (set_pd p w)),
       final (withClient c name (set_pd p w)),
       EvNewClient a s t (inl c) :: events (withClient c name (set_pd p w))).

(** [r] is the run of one of the two entry points, for keyspace [name],
    from world [w]. *)
Definition is_entry_run (name : string) (w : World)
    (r : option Error * World * list Event) : Prop :=
  (r = RegisterMetrics w /\ name = KeyspaceName (global_config w))
  \/ (exists pdAddrs, r = RegisterMetricsForBR pdAddrs name w).

End FurtherVocabulary.

(** * Properties *)

(** The last element of a non-empty list does not depend on the default. *)
Lemma last_nonempty_default {A} (l : list A) (x d d' : A) :
  last (x :: l) d = last (x :: l) d'.
Proof.
  revert x. induction l as [|y l IH]; intro x; [reflexivity|].
  change (last (y :: l) d = last (y :: l) d'). apply IH.
Qed.

Section Projections.

Context `{C : Collaborators}.

Lemma result_run {A} (a : A) (w : World) (es : list Event) :
  result (a, w, es) = a.
Proof. reflexivity. Qed.

Lemma final_run {A} (a : A) (w : World) (es : list Event) :
  final (a, w, es) = w.
Proof. reflexivity. Qed.

Lemma events_run {A} (a : A) (w : World) (es : list Event) :
  events (a, w, es) = es.
Proof. reflexivity. Qed.

End Projections.

(** Reduce the projections of a run that is given as an explicit triple. *)
Ltac norm_run :=
  repeat first [rewrite result_run | rewrite final_run | rewrite events_run].

Section ResolverFacts.

Context `{C : Collaborators}.

Variables (pdCli : Client) (name : string).

(** One run of the closure: one lookup, its error classified. *)
Lemma loadOnce_run (v : option KeyspaceMeta) (w : World) :
  loadOnce pdCli name v w =
  let r := pd_LoadKeyspace pdCli name (pd_state w) in
  ((retryable (snd (fst r)), snd (fst r), fst (fst r)),
   set_pd (snd r) w,
   [EvLoadKeyspace pdCli name (fst (fst r)) (snd (fst r))]).
Proof.
  unfold loadOnce, bind, LoadKeyspace, retryable, result, final, events.
  cbn -[pd_LoadKeyspace].
  destruct (IsNotBootstrappedError _ || IsKeyspaceNotExistError _);
    reflexivity.
Qed.

(** One turn of the retry loop around the closure. *)
Lemma retry_loop_step (n : nat) (backoff : Z) (err : option Error)
    (v : option KeyspaceMeta) (w : World) :
  retry_loop (S n) backoff (loadOnce pdCli name) err v w =
  let r := pd_LoadKeyspace pdCli name (pd_state w) in
  let ev := EvLoadKeyspace pdCli name (fst (fst r)) (snd (fst r)) in
  if is_nil (snd (fst r)) || negb (retryable (snd (fst r)))
  then ((snd (fst r), fst (fst r)), set_pd (snd r) w, [ev])
  else
    let r' := retry_loop n backoff (loadOnce pdCli name)
                (snd (fst r)) (fst (fst r)) (set_pd (snd r) w) in
    (result r', final r', ev :: pause n backoff ++ events r').
Proof.
  cbn [retry_loop]. unfold bind at 1. rewrite loadOnce_run.
  cbn -[pd_LoadKeyspace retry_loop retryable].
  destruct (is_nil _ || negb _).
  - reflexivity.
  - destruct n; reflexivity.
Qed.

(** The resolver only looks up and sleeps, and leaves the configuration
    and the constant label alone. *)
Lemma retry_loop_frame (n : nat) (backoff : Z) :
  forall err v w,
    let r := retry_loop n backoff (loadOnce pdCli name) err v w in
    forallb is_resolver_event (events r) = true
    /\ global_config (final r) = global_config w
    /\ keyspace_label (final r) = keyspace_label w.
Proof.
  induction n as [|n IH]; intros err v w.
  - cbn. auto.
  - cbv zeta. rewrite retry_loop_step. cbv zeta.
    destruct (is_nil _ || negb _).
    + cbn. auto.
    + specialize (IH (snd (fst (pd_LoadKeyspace pdCli name (pd_state w))))
                     (fst (fst (pd_LoadKeyspace pdCli name (pd_state w))))
                     (set_pd (snd (pd_LoadKeyspace pdCli name (pd_state w))) w)).
      cbv zeta in IH. destruct IH as (He & Hc & Hl).
      unfold events, final in *. cbn [fst snd forallb].
      rewrite forallb_app, He, Hc, Hl.
      destruct n; cbn; auto.
Qed.

(** The resolver does not read the configuration or the label: changing
    them changes neither what it returns nor what it does. *)
Lemma retry_loop_config_independent (n : nat) (backoff : Z) :
  forall err v w cfg l,
    let r := retry_loop n backoff (loadOnce pdCli name) err v w in
    retry_loop n backoff (loadOnce pdCli name) err v
      (mkWorld (pd_state w) cfg l)
    = (result r, mkWorld (pd_state (final r)) cfg l, events r).
Proof.
  induction n as [|n IH]; intros err v w cfg l.
  - reflexivity.
  - cbv zeta. rewrite !retry_loop_step. cbv zeta.
    cbn [pd_state].
    destruct (is_nil _ || negb _).
    + reflexivity.
    + specialize (IH (snd (fst (pd_LoadKeyspace pdCli name (pd_state w))))
                     (fst (fst (pd_LoadKeyspace pdCli name (pd_state w))))
                     (set_pd (snd (pd_LoadKeyspace pdCli name (pd_state w))) w)
                     cfg l).
      cbv zeta in IH. unfold set_pd in *.
      cbn [pd_state global_config keyspace_label] in *.
      rewrite IH. reflexivity.
Qed.

(** A lookup that is followed by another one failed with a retryable
    error. *)
Lemma retry_loop_retries_only_retryable (n : nat) (backoff : Z) :
  forall err v w e,
    In e (removelast (lookup_errors
            (events (retry_loop n backoff (loadOnce pdCli name) err v w)))) ->
    e <> None /\ retryable e = true.
Proof.
  induction n as [|n IH]; intros err v w e.
  - cbn. tauto.
  - rewrite retry_loop_step. cbv zeta.
    destruct (is_nil _ || negb _) eqn:Hstop.
    + cbn. tauto.
    + apply orb_false_elim in Hstop. destruct Hstop as [Hnil Hretry].
      apply negb_false_iff in Hretry.
      unfold events. cbn [snd lookup_errors flat_map].
      replace (flat_map _ (pause n backoff ++ _))
        with (lookup_errors
                (events (retry_loop n backoff (loadOnce pdCli name)
                   (snd (fst (pd_LoadKeyspace pdCli name (pd_state w))))
                   (fst (fst (pd_LoadKeyspace pdCli name (pd_state w))))
                   (set_pd (snd (pd_LoadKeyspace pdCli name (pd_state w))) w))))
        by (destruct n; reflexivity).
      cbn [app].
      destruct (lookup_errors _) as [|x l] eqn:Hl.
      * cbn. tauto.
      * change (removelast (?a :: x :: l)) with (a :: removelast (x :: l)).
        intros [<- | Hin].
        -- split; [|exact Hretry].
           destruct (snd (fst _)); [discriminate | discriminate Hnil].
        -- eapply IH. rewrite Hl. exact Hin.
Qed.

(** A lookup that fails with an error outside the two retryable ones is the
    last thing the resolver does, and its error is what it reports. *)
Lemma retry_loop_stops_on_other_failure (n : nat) (backoff : Z) :
  forall err v w es1 es2 cli nm m e,
    events (retry_loop n backoff (loadOnce pdCli name) err v w)
    = es1 ++ EvLoadKeyspace cli nm m (Some e) :: es2 ->
    retryable (Some e) = false ->
    es2 = []
    /\ fst (result (retry_loop n backoff (loadOnce pdCli name) err v w))
       = Some e.
Proof.
  induction n as [|n IH]; intros err v w es1 es2 cli nm m e.
  - cbn. destruct es1; discriminate.
  - rewrite retry_loop_step. cbv zeta.
    destruct (is_nil _ || negb _) eqn:Hstop.
    + unfold events, result. cbn [fst snd]. intros Heq Hno.
      destruct es1 as [|a [|b es1]]; try discriminate.
      cbn [app] in Heq. inversion Heq. auto.
    + apply orb_false_elim in Hstop. destruct Hstop as [_ Hretry].
      apply negb_false_iff in Hretry.
      unfold events at 1, result at 1. cbn [fst snd]. intros Heq Hno.
      destruct es1 as [|a es1]; cbn [app] in Heq.
      * assert (He : snd (fst (pd_LoadKeyspace pdCli name (pd_state w)))
                     = Some e) by congruence.
        rewrite He in Hretry. congruence.
      * inversion Heq as [[Ha Hrest]]. clear Heq.
        destruct n as [|n'].
        -- cbn in Hrest. destruct es1; discriminate.
        -- cbn [pause app] in Hrest. destruct es1 as [|b es1].
           ++ discriminate.
           ++ inversion Hrest as [[Hb Hrest']]. eapply IH; eauto.
Qed.

(** Against a service that keeps failing with a retryable error, the loop
    uses up all its attempts, pausing between any two of them. *)
Lemma retry_loop_exhausts (Inv : PD -> Prop) (backoff : Z) :
  (forall p, Inv p ->
     exists m e p',
       pd_LoadKeyspace pdCli name p = ((m, Some e), p')
       /\ retryable (Some e) = true /\ Inv p') ->
  forall n err v w,
    Inv (pd_state w) ->
    let r := retry_loop n backoff (loadOnce pdCli name) err v w in
    List.length (lookup_errors (events r)) = n
    /\ fst (result r) = last (lookup_errors (events r)) err
    /\ count is_sleep (events r) = Nat.pred n
    /\ Forall (fun x => x <> None /\ retryable x = true)
              (lookup_errors (events r)).
Proof.
  intros Hfail. induction n as [|n IH]; intros err v w Hinv.
  - cbn. auto.
  - cbv zeta. rewrite retry_loop_step. cbv zeta.
    destruct (Hfail _ Hinv) as (m & e & p' & Hcall & Hretry & Hinv').
    rewrite Hcall. cbn [fst snd is_nil orb]. rewrite Hretry. cbn [negb].
    specialize (IH (Some e) m (set_pd p' w) Hinv').
    cbv zeta in IH. destruct IH as (Hlen & Hres & Hsl & Hall).
    unfold events, result in *. cbn [fst snd].
    assert (Hle : lookup_errors
                    (EvLoadKeyspace pdCli name m (Some e)
                     :: pause n backoff
                     ++ snd (retry_loop n backoff (loadOnce pdCli name)
                               (Some e) m (set_pd p' w)))
                  = Some e
                    :: lookup_errors
                         (snd (retry_loop n backoff (loadOnce pdCli name)
                                 (Some e) m (set_pd p' w))))
      by (destruct n; reflexivity).
    rewrite Hle. repeat split.
    + cbn [List.length]. now rewrite Hlen.
    + rewrite Hres.
      destruct (lookup_errors _) as [|x l]; [reflexivity|].
      change (last (Some e :: x :: l) err) with (last (x :: l) err).
      apply last_nonempty_default.
    + unfold count in *. cbn [filter is_sleep].
      rewrite filter_app, length_app, Hsl.
      destruct n; reflexivity.
    + constructor; [split; [discriminate | exact Hretry] | exact Hall].
Qed.

(** [getKeyspaceMeta] is the retry loop with its outcome repackaged. *)
Lemma getKeyspaceMeta_run (w : World) :
  getKeyspaceMeta pdCli name w =
  let r := retry_loop (Z.to_nat DefaultMaxRetries) RetryInterval
             (loadOnce pdCli name) None None w in
  (match fst (result r) with
   | Some e => (None, Some e)
   | None => (snd (result r), None)
   end, final r, events r).
Proof.
  unfold getKeyspaceMeta, RunWithRetry, bind. cbv zeta.
  destruct (fst (result _)); cbn; rewrite app_nil_r; reflexivity.
Qed.

Lemma getKeyspaceMeta_frame (w : World) :
  let r := getKeyspaceMeta pdCli name w in
  forallb is_resolver_event (events r) = true
  /\ global_config (final r) = global_config w
  /\ keyspace_label (final r) = keyspace_label w.
Proof.
  cbv zeta. rewrite getKeyspaceMeta_run.
  exact (retry_loop_frame _ _ None None w).
Qed.

Lemma getKeyspaceMeta_config_independent (w : World) (cfg : Config)
    (l : option string) :
  let r := getKeyspaceMeta pdCli name w in
  getKeyspaceMeta pdCli name (mkWorld (pd_state w) cfg l)
  = (result r, mkWorld (pd_state (final r)) cfg l, events r).
Proof.
  cbv zeta. rewrite !getKeyspaceMeta_run. cbv zeta.
  rewrite retry_loop_config_independent. reflexivity.
Qed.

(** A successful first lookup ends the resolution at once. *)
Lemma getKeyspaceMeta_first_success (w : World) m p :
  0 < DefaultMaxRetries ->
  pd_LoadKeyspace pdCli name (pd_state w) = ((m, None), p) ->
  getKeyspaceMeta pdCli name w
  = ((m, None), set_pd p w, [EvLoadKeyspace pdCli name m None]).
Proof.
  intros Hpos Hcall. rewrite getKeyspaceMeta_run. cbv zeta.
  destruct (Z.to_nat DefaultMaxRetries) as [|n] eqn:Hn; [lia|].
  rewrite retry_loop_step. cbv zeta. rewrite Hcall. reflexivity.
Qed.

End ResolverFacts.

Section EntryPointFacts.

Context `{C : Collaborators}.

Lemma lookup_errors_length (es : list Event) :
  List.length (lookup_errors es) = count is_lookup es.
Proof.
  unfold count. induction es as [|e es IH]; [reflexivity|].
  destruct e; cbn; auto.
Qed.

Lemma count_app (p : Event -> bool) (es1 es2 : list Event) :
  count p (es1 ++ es2) = (count p es1 + count p es2)%nat.
Proof. unfold count. now rewrite filter_app, length_app. Qed.

(** Events of one kind do not count under a predicate for another kind. *)
Lemma count_disjoint (p q : Event -> bool) (es : list Event) :
  forallb q es = true ->
  (forall e, q e = true -> p e = false) ->
  count p es = 0%nat.
Proof.
  intros Hq Hpq. unfold count. induction es as [|e es IH]; [reflexivity|].
  cbn in Hq. apply andb_prop in Hq. destruct Hq as [He Hes].
  cbn. rewrite (Hpq e He). auto.
Qed.

Lemma fanout_all_init (label : option string) (store : string) :
  forallb is_init (fanout label store) = true.
Proof. unfold fanout. destruct (String.eqb store "unistore"); reflexivity. Qed.

Lemma fanout_labels (label : option string) (store : string) (e : Event) :
  In e (fanout label store) -> exists i, e = EvInit i label.
Proof.
  unfold fanout. intros Hin. apply in_app_or in Hin. destruct Hin as [Hin|Hin].
  - apply in_map_iff in Hin. destruct Hin as (i & <- & _). now exists i.
  - destruct (String.eqb store "unistore"); [|contradiction].
    destruct Hin as [<-|[]]. now exists unimetrics_RegisterMetrics.
Qed.

(** Running an initializer, then the rest. *)
Lemma bind_run_eq {A} (i : Initializer) (k : unit -> M A) (w : World)
    (a : A) (w' : World) (es : list Event) :
  k tt w = (a, w', es) ->
  bind (run i) k w = (a, w', EvInit i (keyspace_label w) :: es).
Proof. intros Hk. unfold bind, run, result, final, events. cbn. now rewrite Hk. Qed.

(** Setting the label, then the rest. *)
Lemma bind_SetKeyspaceLabels_eq {A} (s : string) (k : unit -> M A)
    (w : World) (a : A) (w' : World) (es : list Event) :
  k tt (set_label (Some s) w) = (a, w', es) ->
  bind (SetKeyspaceLabels s) k w = (a, w', EvSetKeyspaceLabels s :: es).
Proof.
  intros Hk. unfold bind, SetKeyspaceLabels, result, final, events. cbn.
  now rewrite Hk.
Qed.

Lemma bind_ret_eq {A B} (x : A) (k : A -> M B) (w : World)
    (r : B * World * list Event) :
  k x w = r -> bind (ret x) k w = r.
Proof.
  intros <-. unfold bind, ret, result, final, events. cbn.
  now destruct (k x w) as [[b w'] es].
Qed.

(** The end of [registerMetrics]: the unistore-specific initializer, if the
    configured store is spelled "unistore". *)
Lemma backend_initializer_run (w : World) :
  bind GetGlobalConfig
    (fun cfg =>
       bind (if String.eqb (Store cfg) "unistore"
             then run unimetrics_RegisterMetrics
             else ret tt)
            (fun _ => ret (@None Error))) w
  = (None, w,
     if String.eqb (Store (global_config w)) "unistore"
     then [EvInit unimetrics_RegisterMetrics (keyspace_label w)]
     else []).
Proof.
  unfold bind, GetGlobalConfig, result, final, events. cbn.
  destruct (String.eqb (Store (global_config w)) "unistore"); reflexivity.
Qed.

(** The registration tail without metadata: the fan-out, under whatever
    label is already in force. *)
Lemma registerMetrics_nil (w : World) :
  registerMetrics None w
  = (None, w, fanout (keyspace_label w) (Store (global_config w))).
Proof.
  unfold registerMetrics, fanout. cbn [map common_initializers app].
  apply bind_ret_eq.
  do 14 apply bind_run_eq.
  apply backend_initializer_run.
Qed.

(** The registration tail with metadata: the label first, then the
    fan-out under it. *)
Lemma registerMetrics_meta (m : KeyspaceMeta) (w : World) :
  registerMetrics (Some m) w
  = (None, set_label (Some (fmt_Sprint (GetId m))) w,
     EvSetKeyspaceLabels (fmt_Sprint (GetId m))
     :: fanout (Some (fmt_Sprint (GetId m))) (Store (global_config w))).
Proof.
  unfold registerMetrics, fanout. cbn [map common_initializers app].
  apply bind_SetKeyspaceLabels_eq.
  do 14 apply (bind_run_eq _ _ (set_label (Some (fmt_Sprint (GetId m))) w)).
  apply (backend_initializer_run (set_label (Some (fmt_Sprint (GetId m))) w)).
Qed.

Lemma withClient_run (pdCli : Client) (name : string) (w : World) :
  withClient pdCli name w =
  let r := getKeyspaceMeta pdCli name w in
  match snd (result r) with
  | Some e =>
      (Some e, set_pd (pd_Close pdCli (pd_state (final r))) (final r),
       events r ++ [EvClose pdCli])
  | None =>
      let r2 := registerMetrics (fst (result r)) (final r) in
      (result r2, set_pd (pd_Close pdCli (pd_state (final r2))) (final r2),
       events r ++ events r2 ++ [EvClose pdCli])
  end.
Proof.
  unfold withClient, defer, bind. cbv zeta.
  destruct (getKeyspaceMeta pdCli name w) as [[[meta err] w1] es1].
  unfold result, final, events. cbn [fst snd].
  destruct err as [e|].
  - cbn. rewrite app_nil_r. reflexivity.
  - cbn [fst snd]. destruct (registerMetrics meta w1) as [[r2 w2] es2].
    cbn. rewrite <- app_assoc. reflexivity.
Qed.

Lemma RegisterMetrics_skip (w : World) :
  skipsResolution (global_config w) = true ->
  RegisterMetrics w = registerMetrics None w.
Proof.
  intros Hskip. unfold RegisterMetrics, bind at 1, GetGlobalConfig.
  cbn -[registerMetrics]. unfold skipsResolution in Hskip.
  rewrite Hskip. destruct (registerMetrics None w) as [[r w'] es].
  reflexivity.
Qed.

Lemma RegisterMetrics_parse_error (w : World) (e : Error) :
  skipsResolution (global_config w) = false ->
  parseError (global_config w) = Some e ->
  RegisterMetrics w = (Some e, w, []).
Proof.
  intros Hskip Hparse. unfold RegisterMetrics, bind at 1, GetGlobalConfig.
  cbn -[registerMetrics]. unfold skipsResolution in Hskip.
  rewrite Hskip. unfold parseError in Hparse.
  destruct (ParsePath _) as [[[addrs gc] ks] err]. cbn in Hparse.
  subst err. reflexivity.
Qed.

Lemma RegisterMetrics_client_error (w : World) (e : Error) (p : PD) :
  skipsResolution (global_config w) = false ->
  parseError (global_config w) = None ->
  pd_NewClient (parsedAddrs (global_config w))
               (configuredSecurity (global_config w))
               (configuredTimeout (global_config w))
               (pd_state w) = (inr e, p) ->
  RegisterMetrics w
  = (Some e, set_pd p w,
     [EvNewClient (parsedAddrs (global_config w))
                  (configuredSecurity (global_config w))
                  (configuredTimeout (global_config w)) (inr e)]).
Proof.
  intros Hskip Hparse Hnew. unfold RegisterMetrics, bind at 1, GetGlobalConfig.
  cbn -[registerMetrics]. unfold skipsResolution in Hskip.
  rewrite Hskip. unfold parseError in Hparse. unfold parsedAddrs in Hnew |- *.
  destruct (ParsePath _) as [[[addrs gc] ks] err]. cbn in Hparse, Hnew |- *.
  subst err. unfold bind, NewClient, result, final, events.
  unfold configuredSecurity, configuredTimeout in Hnew |- *.
  cbn -[wrap_int64]. rewrite Hnew. reflexivity.
Qed.

Lemma RegisterMetrics_client_ok (w : World) (pdCli : Client) (p : PD) :
  skipsResolution (global_config w) = false ->
  parseError (global_config w) = None ->
  pd_NewClient (parsedAddrs (global_config w))
               (configuredSecurity (global_config w))
               (configuredTimeout (global_config w))
               (pd_state w) = (inl pdCli, p) ->
  RegisterMetrics w
  = let r := withClient pdCli (KeyspaceName (global_config w))
               (set_pd p w) in
    (result r, final r,
     EvNewClient (parsedAddrs (global_config w))
                 (configuredSecurity (global_config w))
                 (configuredTimeout (global_config w)) (inl pdCli)
     :: events r).
Proof.
  intros Hskip Hparse Hnew. unfold RegisterMetrics, bind at 1, GetGlobalConfig.
  cbn -[registerMetrics getKeyspaceMeta]. unfold skipsResolution in Hskip.
  rewrite Hskip. unfold parseError in Hparse. unfold parsedAddrs in Hnew |- *.
  destruct (ParsePath _) as [[[addrs gc] ks] err]. cbn in Hparse, Hnew |- *.
  subst err. unfold bind at 1, NewClient, result at 1 2, final at 1,
    events at 1.
  unfold configuredSecurity, configuredTimeout in Hnew |- *.
  cbn -[wrap_int64 registerMetrics getKeyspaceMeta withClient defer].
  rewrite Hnew. reflexivity.
Qed.

Lemma RegisterMetricsForBR_skip (pdAddrs : list string) (name : string)
    (w : World) :
  IsKeyspaceNameEmpty name = true ->
  RegisterMetricsForBR pdAddrs name w = registerMetrics None w.
Proof.
  intros Hskip. unfold RegisterMetricsForBR. rewrite Hskip. reflexivity.
Qed.

Lemma RegisterMetricsForBR_client_error (pdAddrs : list string)
    (name : string) (w : World) (e : Error) (p : PD) :
  IsKeyspaceNameEmpty name = false ->
  pd_NewClient pdAddrs emptySecurityOption (wrap_int64 (10 * time_Second))
               (pd_state w) = (inr e, p) ->
  RegisterMetricsForBR pdAddrs name w
  = (Some e, set_pd p w,
     [EvNewClient pdAddrs emptySecurityOption
                  (wrap_int64 (10 * time_Second)) (inr e)]).
Proof.
  intros Hskip Hnew. unfold RegisterMetricsForBR. rewrite Hskip.
  unfold bind, NewClient, result, final, events.
  cbn -[wrap_int64 Z.mul time_Second]. rewrite Hnew. reflexivity.
Qed.

Lemma RegisterMetricsForBR_client_ok (pdAddrs : list string)
    (name : string) (w : World) (pdCli : Client) (p : PD) :
  IsKeyspaceNameEmpty name = false ->
  pd_NewClient pdAddrs emptySecurityOption (wrap_int64 (10 * time_Second))
               (pd_state w) = (inl pdCli, p) ->
  RegisterMetricsForBR pdAddrs name w
  = let r := withClient pdCli name (set_pd p w) in
    (result r, final r,
     EvNewClient pdAddrs emptySecurityOption
                 (wrap_int64 (10 * time_Second)) (inl pdCli)
     :: events r).
Proof.
  intros Hskip Hnew. unfold RegisterMetricsForBR. rewrite Hskip.
  unfold bind at 1, NewClient, result at 1 2, final at 1, events at 1.
  cbn -[wrap_int64 Z.mul time_Second registerMetrics getKeyspaceMeta
        withClient defer].
  rewrite Hnew. reflexivity.
Qed.

End EntryPointFacts.

(** [fmt_Sprint] writes the base-ten numeral of its argument. *)
Lemma fmt_Sprint_decimal (n : N) : decimal_value (fmt_Sprint n) = Some n.
Proof.
  unfold decimal_value, fmt_Sprint.
  rewrite NilZero.usu.
  - cbn. now rewrite DecimalN.Unsigned.of_to.
  - destruct n as [|p]; [discriminate|].
    apply DecimalPos.Unsigned.to_uint_nonnil.
Qed.

(** ** The resolver *)

(** C1: [getKeyspaceMeta] looks up again only after a failure that is one
    of the two retryable conditions (cluster not bootstrapped, keyspace
    does not exist). A lookup failing with any other error is the last
    thing the resolver does and that error is what it returns; when it is
    the first lookup, exactly one call is made and no pause is taken. *)
Theorem getKeyspaceMeta_retries_only_two_conditions
    `{C : Collaborators} (pdCli : Client) (name : string) (w : World) :
  let r := getKeyspaceMeta pdCli name w in
  (forall err,
      In err (removelast (lookup_errors (events r))) ->
      (exists e, err = Some e)
      /\ (IsNotBootstrappedError err = true
          \/ IsKeyspaceNotExistError err = true))
  /\ (forall es1 es2 cli nm m e,
         events r = es1 ++ EvLoadKeyspace cli nm m (Some e) :: es2 ->
         IsNotBootstrappedError (Some e) = false ->
         IsKeyspaceNotExistError (Some e) = false ->
         es2 = [] /\ result r = (None, Some e))
  /\ (0 < DefaultMaxRetries ->
      forall m e p,
        pd_LoadKeyspace pdCli name (pd_state w) = ((m, Some e), p) ->
        IsNotBootstrappedError (Some e) = false ->
        IsKeyspaceNotExistError (Some e) = false ->
        r = ((None, Some e), set_pd p w,
             [EvLoadKeyspace pdCli name m (Some e)])).
Proof.
  cbv zeta. rewrite getKeyspaceMeta_run. cbv zeta.
  set (n := Z.to_nat DefaultMaxRetries).
  split; [|split].
  - intros err Hin.
    apply retry_loop_retries_only_retryable in Hin.
    destruct Hin as [Hsome Hretry]. split.
    + destruct err as [e|]; [now exists e | congruence].
    + unfold retryable in Hretry. now apply orb_true_iff in Hretry.
  - intros es1 es2 cli nm m e Hev Hnb Hne.
    unfold events at 1 in Hev. cbn [snd] in Hev.
    assert (Hno : retryable (Some e) = false)
      by (unfold retryable; now rewrite Hnb, Hne).
    destruct (retry_loop_stops_on_other_failure pdCli name n RetryInterval
                None None w es1 es2 cli nm m e Hev Hno) as [Hlast Hres].
    split; [exact Hlast|]. unfold result at 1. cbn [fst].
    now rewrite Hres.
  - intros Hpos m e p Hcall Hnb Hne.
    destruct n as [|n'] eqn:Hn; [subst n; lia|].
    rewrite retry_loop_step. cbv zeta. rewrite Hcall.
    cbn [fst snd is_nil orb]. unfold retryable. rewrite Hnb, Hne.
    reflexivity.
Qed.

(** C1 on the scripted service: a transport error on the first lookup ends
    the resolution after that single call. *)
Lemma getKeyspaceMeta_retries_only_two_conditions_witness :
  getKeyspaceMeta (C := Scripted.collab) 1%nat "tenant_x"
    (Scripted.world [Scripted.failed Scripted.errTransport; Scripted.found 5]
                    "tenant_x" "tikv")
  = ((None, Some Scripted.errTransport),
     Scripted.world [Scripted.found 5] "tenant_x" "tikv",
     [EvLoadKeyspace (C := Scripted.collab) 1%nat "tenant_x" None
        (Some Scripted.errTransport)]).
Proof.
  apply (proj2 (proj2
           (getKeyspaceMeta_retries_only_two_conditions
              (C := Scripted.collab) 1%nat "tenant_x"
              (Scripted.world
                 [Scripted.failed Scripted.errTransport; Scripted.found 5]
                 "tenant_x" "tikv"))));
    reflexivity.
Defined.

(** C2: against a client whose lookup keeps failing with a retryable
    condition, [getKeyspaceMeta] makes exactly [DefaultMaxRetries] lookups
    and returns the error of the last one. [Inv] delimits the states of
    the metadata service in which the lookup fails that way. *)
Theorem getKeyspaceMeta_exhausts_max_attempts
    `{C : Collaborators} (Inv : PD -> Prop) (pdCli : Client)
    (name : string) (w : World) :
  0 < DefaultMaxRetries ->
  Inv (pd_state w) ->
  (forall p, Inv p ->
     exists m e p',
       pd_LoadKeyspace pdCli name p = ((m, Some e), p')
       /\ (IsNotBootstrappedError (Some e) = true
           \/ IsKeyspaceNotExistError (Some e) = true)
       /\ Inv p') ->
  let r := getKeyspaceMeta pdCli name w in
  Z.of_nat (count is_lookup (events r)) = DefaultMaxRetries
  /\ exists e,
       last (lookup_errors (events r)) None = Some e
       /\ result r = (None, Some e).
Proof.
  intros Hpos Hinv Hfail. cbv zeta. rewrite getKeyspaceMeta_run. cbv zeta.
  assert (Hfail' : forall p, Inv p ->
            exists m e p',
              pd_LoadKeyspace pdCli name p = ((m, Some e), p')
              /\ retryable (Some e) = true /\ Inv p').
  { intros p Hp. destruct (Hfail p Hp) as (m & e & p' & Hc & Hr & Hi).
    exists m, e, p'. repeat split; auto.
    unfold retryable. now apply orb_true_iff. }
  destruct (retry_loop_exhausts pdCli name Inv RetryInterval Hfail'
              (Z.to_nat DefaultMaxRetries) None None w Hinv)
    as (Hlen & Hres & _ & Hall).
  rewrite <- lookup_errors_length.
  unfold events, result in *. cbn [fst snd] in *.
  rewrite Hlen. split; [lia|].
  destruct (lookup_errors _) as [|x l] eqn:Hl.
  - cbn in Hlen. lia.
  - assert (Hin : In (last (x :: l) None) (x :: l)).
    { destruct (exists_last (l := x :: l)) as (l' & a & Heq);
        [discriminate|].
      rewrite Heq, last_last. apply in_or_app. right. now left. }
    rewrite Forall_forall in Hall. destruct (Hall _ Hin) as [Hsome _].
    destruct (last (x :: l) None) as [e|] eqn:Hlast; [|congruence].
    exists e. split; [reflexivity|]. now rewrite Hres.
Qed.

(** C2 on the scripted service with its script used up: every lookup
    reports "not bootstrapped", and the three attempts are all made. *)
Lemma getKeyspaceMeta_exhausts_max_attempts_witness :
  let r := getKeyspaceMeta (C := Scripted.collab) 1%nat "tenant_x"
             (Scripted.world [] "tenant_x" "tikv") in
  Z.of_nat (count is_lookup (events r)) = 3
  /\ exists e,
       last (lookup_errors (events r)) None = Some e
       /\ result r = (None, Some e).
Proof.
  apply (getKeyspaceMeta_exhausts_max_attempts (C := Scripted.collab)
           (fun p => p = []) 1%nat "tenant_x"
           (Scripted.world [] "tenant_x" "tikv")).
  - reflexivity.
  - reflexivity.
  - intros p ->. exists None, Scripted.errNotBootstrapped, [].
    split; [reflexivity|]. split; [left; reflexivity | reflexivity].
Defined.

Section LifecycleFacts.

Context `{C : Collaborators}.

Lemma registerMetrics_result (m : option KeyspaceMeta) (w : World) :
  result (registerMetrics m w) = None.
Proof.
  destruct m as [k|];
    [rewrite registerMetrics_meta | rewrite registerMetrics_nil];
    reflexivity.
Qed.

Lemma registerMetrics_events (m : option KeyspaceMeta) (w : World) :
  forallb is_registration (events (registerMetrics m w)) = true.
Proof.
  destruct m as [k|];
    [rewrite registerMetrics_meta | rewrite registerMetrics_nil];
    unfold events; cbn [snd forallb is_registration is_set_label is_init orb andb].
  all: rewrite forallb_forall; intros e He.
  all: apply fanout_labels in He; destruct He as [i ->]; reflexivity.
Qed.

Lemma resolver_not_registration (e : Event) :
  is_resolver_event e = true -> is_registration e = false.
Proof. destruct e; cbn; congruence. Qed.

Lemma resolver_not_close (e : Event) :
  is_resolver_event e = true -> is_close e = false.
Proof. destruct e; cbn; congruence. Qed.

Lemma resolver_not_new_client (e : Event) :
  is_resolver_event e = true -> is_new_client e = false.
Proof. destruct e; cbn; congruence. Qed.

Lemma registration_not_close (e : Event) :
  is_registration e = true -> is_close e = false.
Proof. destruct e; cbn; congruence. Qed.

Lemma registration_not_new_client (e : Event) :
  is_registration e = true -> is_new_client e = false.
Proof. destruct e; cbn; congruence. Qed.

(** With a client open, the outcome is the resolver's error, if any. *)
Lemma withClient_result (pdCli : Client) (name : string) (w : World) :
  result (withClient pdCli name w)
  = snd (result (getKeyspaceMeta pdCli name w)).
Proof.
  rewrite withClient_run. cbv zeta.
  destruct (snd (result (getKeyspaceMeta pdCli name w))); [reflexivity|].
  norm_run. apply registerMetrics_result.
Qed.

(** A failed resolution leaves without registering anything. *)
Lemma withClient_failure (pdCli : Client) (name : string) (w : World)
    (e : Error) :
  snd (result (getKeyspaceMeta pdCli name w)) = Some e ->
  let r := withClient pdCli name w in
  result r = Some e
  /\ count is_registration (events r) = 0%nat
  /\ keyspace_label (final r) = keyspace_label w.
Proof.
  intros Hres. cbv zeta. rewrite withClient_run. cbv zeta. rewrite Hres.
  destruct (getKeyspaceMeta_frame pdCli name w) as (Hev & _ & Hlabel).
  cbv zeta in Hev, Hlabel.
  norm_run.
  repeat split.
  - rewrite count_app.
    rewrite (count_disjoint is_registration is_resolver_event _ Hev
               resolver_not_registration).
    reflexivity.
  - exact Hlabel.
Qed.

(** With a client open, closing it is the last thing done, and nothing
    before it closes or opens a client. *)
Lemma withClient_closes_last (pdCli : Client) (name : string) (w : World) :
  exists mid,
    events (withClient pdCli name w) = mid ++ [EvClose pdCli]
    /\ count is_close mid = 0%nat
    /\ count is_new_client mid = 0%nat.
Proof.
  rewrite withClient_run. cbv zeta.
  destruct (getKeyspaceMeta_frame pdCli name w) as (Hev & _ & _).
  cbv zeta in Hev.
  destruct (snd (result (getKeyspaceMeta pdCli name w))).
  - exists (events (getKeyspaceMeta pdCli name w)). repeat split.
    + apply (count_disjoint _ _ _ Hev resolver_not_close).
    + apply (count_disjoint _ _ _ Hev resolver_not_new_client).
  - exists (events (getKeyspaceMeta pdCli name w)
            ++ events (registerMetrics
                         (fst (result (getKeyspaceMeta pdCli name w)))
                         (final (getKeyspaceMeta pdCli name w)))).
    norm_run. rewrite <- app_assoc.
    repeat split; rewrite count_app.
    + rewrite (count_disjoint _ _ _ Hev resolver_not_close).
      now rewrite (count_disjoint _ _ _ (registerMetrics_events _ _)
                     registration_not_close).
    + rewrite (count_disjoint _ _ _ Hev resolver_not_new_client).
      now rewrite (count_disjoint _ _ _ (registerMetrics_events _ _)
                     registration_not_new_client).
Qed.

(** The three ways [RegisterMetrics] can go, read off the configuration
    and the client constructor. *)
Lemma RegisterMetrics_cases (w : World) :
  skipsResolution (global_config w) = true
  \/ (skipsResolution (global_config w) = false
      /\ exists e, parseError (global_config w) = Some e)
  \/ (skipsResolution (global_config w) = false
      /\ parseError (global_config w) = None
      /\ exists r p,
           pd_NewClient (parsedAddrs (global_config w))
                        (configuredSecurity (global_config w))
                        (configuredTimeout (global_config w))
                        (pd_state w) = (r, p)).
Proof.
  destruct (skipsResolution (global_config w)); [now left | right].
  destruct (parseError (global_config w)) as [e|].
  - left. split; [reflexivity | now exists e].
  - right. repeat split.
    destruct (pd_NewClient _ _ _ _) as [r p]. now exists r, p.
Qed.

End LifecycleFacts.

Lemma count_zero_In `{C : Collaborators} (p : Event -> bool)
    (es : list Event) (e : Event) :
  count p es = 0%nat -> In e es -> p e = false.
Proof.
  unfold count. induction es as [|a es IH]; [contradiction|].
  cbn. destruct (p a) eqn:Ha; [discriminate|].
  intros Hc [<-|Hin]; auto.
Qed.

(** Once the constructor's event heads a run that ends by closing that
    client, every successfully opened client in the run is that one, and
    it is closed exactly once, last. *)
Lemma opened_client_closed_once `{C : Collaborators}
    (a : list string) (s : SecurityOption) (t : Z) (c0 : Client)
    (es : list Event) :
  (exists mid,
      es = mid ++ [EvClose c0]
      /\ count is_close mid = 0%nat /\ count is_new_client mid = 0%nat) ->
  forall addrs sec tm c,
    In (EvNewClient addrs sec tm (inl c)) (EvNewClient a s t (inl c0) :: es) ->
    (exists mid,
        EvNewClient a s t (inl c0) :: es
        = EvNewClient addrs sec tm (inl c) :: mid ++ [EvClose c]
        /\ count is_close mid = 0%nat /\ count is_new_client mid = 0%nat)
    /\ count is_close (EvNewClient a s t (inl c0) :: es) = 1%nat.
Proof.
  intros (mid & -> & Hclose & Hnew) addrs sec tm c Hin. split.
  - destruct Hin as [Heq|Hin].
    + inversion Heq; subst. exists mid. auto.
    + apply in_app_or in Hin. destruct Hin as [Hin|[Hin|[]]].
      * apply (count_zero_In _ _ _ Hnew) in Hin. discriminate.
      * discriminate.
  - change (count is_close (mid ++ [EvClose c0]) = 1%nat).
    rewrite count_app, Hclose. reflexivity.
Qed.

(** ** The entry points *)

(** C3: when the keyspace name is empty or the store, lower-cased, is not
    "tikv", [RegisterMetrics] opens no client, makes no lookup, sets no
    label and returns nil after the fan-out alone; the state of the
    metadata service plays no part and is left as it was. *)
Theorem RegisterMetrics_skips_resolution
    `{C : Collaborators} (w : World) :
  IsKeyspaceNameEmpty (KeyspaceName (global_config w)) = true
  \/ strings.ToLower mapUnicodeLower (Store (global_config w)) <> "tikv" ->
  RegisterMetrics w
  = (None, w, fanout (keyspace_label w) (Store (global_config w)))
  /\ count is_new_client (events (RegisterMetrics w)) = 0%nat
  /\ count is_lookup (events (RegisterMetrics w)) = 0%nat
  /\ count is_set_label (events (RegisterMetrics w)) = 0%nat
  /\ (forall p,
         result (RegisterMetrics (set_pd p w)) = None
         /\ events (RegisterMetrics (set_pd p w)) = events (RegisterMetrics w)
         /\ pd_state (final (RegisterMetrics (set_pd p w))) = p).
Proof.
  intros Hgate.
  assert (Hskip : skipsResolution (global_config w) = true).
  { unfold skipsResolution. destruct Hgate as [-> | Hne]; [reflexivity|].
    apply orb_true_iff. right. apply negb_true_iff.
    now apply String.eqb_neq. }
  assert (Hrun : forall w', global_config w' = global_config w ->
            RegisterMetrics w'
            = (None, w', fanout (keyspace_label w') (Store (global_config w')))).
  { intros w' Hcfg. rewrite RegisterMetrics_skip by now rewrite Hcfg.
    apply registerMetrics_nil. }
  rewrite (Hrun w eq_refl). norm_run.
  pose proof (fanout_all_init (keyspace_label w) (Store (global_config w)))
    as Hinit.
  repeat split.
  - apply (count_disjoint _ _ _ Hinit). now intros [].
  - apply (count_disjoint _ _ _ Hinit). now intros [].
  - apply (count_disjoint _ _ _ Hinit). now intros [].
  - now rewrite (Hrun (set_pd p w) eq_refl).
  - now rewrite (Hrun (set_pd p w) eq_refl).
  - now rewrite (Hrun (set_pd p w) eq_refl).
Qed.

(** C3 on the scripted service: a "unistore" store skips resolution even
    with a keyspace name set and a service ready to answer. *)
Lemma RegisterMetrics_skips_resolution_witness :
  count is_lookup
    (events (RegisterMetrics
               (Scripted.world [Scripted.found 42] "tenant_7" "unistore")))
  = 0%nat.
Proof.
  apply (RegisterMetrics_skips_resolution (C := Scripted.collab)
           (Scripted.world [Scripted.found 42] "tenant_7" "unistore")).
  right. discriminate.
Defined.

(** C4: in both entry points every fatal condition (a path that does not
    parse, a client that cannot be constructed, a resolution that fails)
    makes the call return that error with no label set and no initializer
    run. *)
Theorem fatal_aborts_before_registration `{C : Collaborators} :
  (forall w e,
      Fatal w e ->
      let r := RegisterMetrics w in
      result r = Some e
      /\ count is_registration (events r) = 0%nat
      /\ keyspace_label (final r) = keyspace_label w)
  /\ (forall pdAddrs name w e,
         FatalBR pdAddrs name w e ->
         let r := RegisterMetricsForBR pdAddrs name w in
         result r = Some e
         /\ count is_registration (events r) = 0%nat
         /\ keyspace_label (final r) = keyspace_label w).
Proof.
  split.
  - intros w e [Hskip Hparse | p Hskip Hparse Hnew | cli p Hskip Hparse Hnew Hres];
      cbv zeta.
    + rewrite (RegisterMetrics_parse_error w e Hskip Hparse). auto.
    + rewrite (RegisterMetrics_client_error w e p Hskip Hparse Hnew). auto.
    + rewrite (RegisterMetrics_client_ok w cli p Hskip Hparse Hnew).
      cbv zeta.
      destruct (withClient_failure cli _ (set_pd p w) e Hres)
        as (Hr & Hc & Hl).
      norm_run.
      repeat split; auto.
  - intros pdAddrs name w e [p Hskip Hnew | cli p Hskip Hnew Hres]; cbv zeta.
    + rewrite (RegisterMetricsForBR_client_error _ _ w e p Hskip Hnew). auto.
    + rewrite (RegisterMetricsForBR_client_ok _ _ w cli p Hskip Hnew).
      cbv zeta.
      destruct (withClient_failure cli name (set_pd p w) e Hres)
        as (Hr & Hc & Hl).
      norm_run.
      repeat split; auto.
Qed.

(** C4 on the scripted service: a transport error during resolution. *)
Lemma fatal_aborts_before_registration_witness :
  let r := RegisterMetrics
             (Scripted.world [Scripted.failed Scripted.errTransport]
                             "tenant_x" "tikv") in
  result r = Some Scripted.errTransport
  /\ count is_registration (events r) = 0%nat
  /\ keyspace_label (final r) = None.
Proof.
  apply (proj1 (fatal_aborts_before_registration (C := Scripted.collab))
           (Scripted.world [Scripted.failed Scripted.errTransport]
                           "tenant_x" "tikv")
           Scripted.errTransport).
  apply (Fatal_resolve (C := Scripted.collab) _ _ 1%nat
           [Scripted.failed Scripted.errTransport]);
    reflexivity.
Defined.

(** C5: in both entry points a client that was successfully constructed is
    closed exactly once, as the last effect before the entry point
    returns, whatever the resolution and the registration did. *)
Theorem client_closed_exactly_once `{C : Collaborators} :
  (forall w addrs sec tm c,
      let r := RegisterMetrics w in
      In (EvNewClient addrs sec tm (inl c)) (events r) ->
      (exists mid,
          events r = EvNewClient addrs sec tm (inl c) :: mid ++ [EvClose c]
          /\ count is_close mid = 0%nat /\ count is_new_client mid = 0%nat)
      /\ count is_close (events r) = 1%nat)
  /\ (forall pdAddrs name w addrs sec tm c,
         let r := RegisterMetricsForBR pdAddrs name w in
         In (EvNewClient addrs sec tm (inl c)) (events r) ->
         (exists mid,
             events r = EvNewClient addrs sec tm (inl c) :: mid ++ [EvClose c]
             /\ count is_close mid = 0%nat /\ count is_new_client mid = 0%nat)
         /\ count is_close (events r) = 1%nat).
Proof.
  split.
  - intros w addrs sec tm c. cbv zeta.
    destruct (RegisterMetrics_cases w)
      as [Hskip | [(Hskip & e & Hparse) | (Hskip & Hparse & r & p & Hnew)]].
    + rewrite (RegisterMetrics_skip w Hskip), registerMetrics_nil.
      intros Hin. apply fanout_labels in Hin. destruct Hin as [i Hi].
      discriminate.
    + rewrite (RegisterMetrics_parse_error w e Hskip Hparse).
      intros [].
    + destruct r as [cli|e].
      * rewrite (RegisterMetrics_client_ok w cli p Hskip Hparse Hnew).
        cbv zeta. norm_run.
        apply opened_client_closed_once, withClient_closes_last.
      * rewrite (RegisterMetrics_client_error w e p Hskip Hparse Hnew).
        intros [Heq|[]]. discriminate.
  - intros pdAddrs name w addrs sec tm c. cbv zeta.
    destruct (IsKeyspaceNameEmpty name) eqn:Hskip.
    + rewrite (RegisterMetricsForBR_skip _ _ w Hskip), registerMetrics_nil.
      intros Hin. apply fanout_labels in Hin. destruct Hin as [i Hi].
      discriminate.
    + destruct (pd_NewClient pdAddrs emptySecurityOption
                  (wrap_int64 (10 * time_Second)) (pd_state w))
        as [[cli|e] p] eqn:Hnew.
      * rewrite (RegisterMetricsForBR_client_ok _ _ w cli p Hskip Hnew).
        cbv zeta. norm_run.
        apply opened_client_closed_once, withClient_closes_last.
      * rewrite (RegisterMetricsForBR_client_error _ _ w e p Hskip Hnew).
        intros [Heq|[]]. discriminate.
Qed.

(** C5 on the scripted service: two retries, then success; one close. *)
Lemma client_closed_exactly_once_witness :
  count is_close
    (events (RegisterMetrics
               (Scripted.world
                  [Scripted.failed Scripted.errNotBootstrapped;
                   Scripted.failed Scripted.errNotBootstrapped;
                   Scripted.found 5] "tenant_x" "tikv")))
  = 1%nat.
Proof.
  apply (proj1 (client_closed_exactly_once (C := Scripted.collab))
           (Scripted.world
              [Scripted.failed Scripted.errNotBootstrapped;
               Scripted.failed Scripted.errNotBootstrapped;
               Scripted.found 5] "tenant_x" "tikv")
           ["pd0:2379"] emptySecurityOption 3000000000 1%nat).
  vm_compute. left. reflexivity.
Defined.

(** C9: [registerMetrics] returns nil on every input, so an error out of
    either entry point is one of its fatal conditions: the path did not
    parse, the client could not be constructed, or the resolution
    failed. *)
Theorem registration_errors_are_the_fatal_conditions `{C : Collaborators} :
  (forall m w, result (registerMetrics m w) = None)
  /\ (forall w e, result (RegisterMetrics w) = Some e -> Fatal w e)
  /\ (forall pdAddrs name w e,
         result (RegisterMetricsForBR pdAddrs name w) = Some e ->
         FatalBR pdAddrs name w e).
Proof.
  split; [exact registerMetrics_result | split].
  - intros w e.
    destruct (RegisterMetrics_cases w)
      as [Hskip | [(Hskip & e' & Hparse) | (Hskip & Hparse & r & p & Hnew)]].
    + rewrite (RegisterMetrics_skip w Hskip), registerMetrics_result.
      discriminate.
    + rewrite (RegisterMetrics_parse_error w e' Hskip Hparse).
      norm_run. intros [= <-].
      now apply Fatal_parse.
    + destruct r as [cli|e'].
      * rewrite (RegisterMetrics_client_ok w cli p Hskip Hparse Hnew).
        cbv zeta. norm_run.
        rewrite withClient_result. intros Hres.
        now apply (Fatal_resolve w e cli p).
      * rewrite (RegisterMetrics_client_error w e' p Hskip Hparse Hnew).
        norm_run. intros [= <-].
        now apply (Fatal_client w e' p).
  - intros pdAddrs name w e.
    destruct (IsKeyspaceNameEmpty name) eqn:Hskip.
    + rewrite (RegisterMetricsForBR_skip _ _ w Hskip), registerMetrics_result.
      discriminate.
    + destruct (pd_NewClient pdAddrs emptySecurityOption
                  (wrap_int64 (10 * time_Second)) (pd_state w))
        as [[cli|e'] p] eqn:Hnew.
      * rewrite (RegisterMetricsForBR_client_ok _ _ w cli p Hskip Hnew).
        cbv zeta. norm_run.
        rewrite withClient_result. intros Hres.
        now apply (FatalBR_resolve pdAddrs name w e cli p).
      * rewrite (RegisterMetricsForBR_client_error _ _ w e' p Hskip Hnew).
        norm_run. intros [= <-].
        now apply (FatalBR_client pdAddrs name w e' p).
Qed.

(** C9 on the scripted service: the error of a call with no endpoint to
    connect to is traced back to the client constructor. *)
Lemma registration_errors_are_the_fatal_conditions_witness :
  FatalBR (C := Scripted.collab) [] "tenant_x"
    (Scripted.world [] "" "tikv") "no endpoints".
Proof.
  apply (proj2 (proj2
           (registration_errors_are_the_fatal_conditions
              (C := Scripted.collab)))).
  reflexivity.
Defined.

Section LabelFacts.

Context `{C : Collaborators}.

(** With a client open and metadata resolved, the label is set between the
    resolution and the fan-out. *)
Lemma withClient_resolved (pdCli : Client) (name : string) (w : World)
    (meta : KeyspaceMeta) :
  result (getKeyspaceMeta pdCli name w) = (Some meta, None) ->
  events (withClient pdCli name w)
  = events (getKeyspaceMeta pdCli name w)
    ++ EvSetKeyspaceLabels (fmt_Sprint (GetId meta))
    :: fanout (Some (fmt_Sprint (GetId meta))) (Store (global_config w))
    ++ [EvClose pdCli].
Proof.
  intros Hres. rewrite withClient_run. cbv zeta. rewrite Hres.
  cbn [fst snd]. rewrite registerMetrics_meta.
  destruct (getKeyspaceMeta_frame pdCli name w) as (_ & Hcfg & _).
  cbv zeta in Hcfg. rewrite Hcfg. reflexivity.
Qed.

End LabelFacts.

(** C6: given metadata with identifier [n], [registerMetrics] first sets
    the constant keyspace label to the base-ten numeral of [n] (42 gives
    "42"), and only then runs the initializers, every one of them under
    that label; the same holds inside an entry point once the resolver has
    returned the metadata. *)
Theorem registerMetrics_labels_before_initializers
    `{C : Collaborators} (meta : KeyspaceMeta) (w : World) :
  let s := fmt_Sprint (GetId meta) in
  let r := registerMetrics (Some meta) w in
  decimal_value s = Some (Id meta)
  /\ fmt_Sprint 42 = "42"
  /\ (exists inits,
         events r = EvSetKeyspaceLabels s :: inits
         /\ (forall e, In e inits -> exists i, e = EvInit i (Some s))
         /\ (14 <= count is_init inits)%nat)
  /\ keyspace_label (final r) = Some s
  /\ (forall pdCli name,
         result (getKeyspaceMeta pdCli name w) = (Some meta, None) ->
         exists inits,
           events (withClient pdCli name w)
           = events (getKeyspaceMeta pdCli name w)
             ++ EvSetKeyspaceLabels s :: inits ++ [EvClose pdCli]
           /\ (forall e, In e inits -> exists i, e = EvInit i (Some s))).
Proof.
  cbv zeta. rewrite registerMetrics_meta.
  split; [apply fmt_Sprint_decimal|].
  split; [reflexivity|].
  split; [|split; [reflexivity|]].
  - exists (fanout (Some (fmt_Sprint (GetId meta))) (Store (global_config w))).
    split; [reflexivity|]. split; [apply fanout_labels|].
    unfold fanout. rewrite count_app.
    change (count is_init (map _ common_initializers)) with 14%nat. lia.
  - intros pdCli name Hres.
    exists (fanout (Some (fmt_Sprint (GetId meta))) (Store (global_config w))).
    split; [now apply withClient_resolved | apply fanout_labels].
Qed.

Section ConfigurationFacts.

Context `{C : Collaborators}.

(** Without the unistore-specific initializer the fan-out is the same for
    every store. *)
Lemma fanout_up_to_unistore (label : option string) (store : string) :
  filter not_unistore_init (fanout label store)
  = map (fun i => EvInit i label) common_initializers.
Proof.
  unfold fanout. rewrite filter_app.
  destruct (String.eqb store "unistore"); reflexivity.
Qed.

Lemma fanout_same_gate (label : option string) (store store' : string) :
  String.eqb store' "unistore" = String.eqb store "unistore" ->
  fanout label store' = fanout label store.
Proof. unfold fanout. now intros ->. Qed.

(** The registration tail reads the configuration for one thing only:
    whether to run the unistore-specific initializer. *)
Lemma registerMetrics_config_change (m : option KeyspaceMeta) (w : World)
    (cfg' : Config) :
  let r := registerMetrics m w in
  let r' := registerMetrics m (set_config cfg' w) in
  result r' = result r
  /\ final r' = set_config cfg' (final r)
  /\ filter not_unistore_init (events r')
     = filter not_unistore_init (events r)
  /\ (String.eqb (Store cfg') "unistore"
      = String.eqb (Store (global_config w)) "unistore" ->
      events r' = events r).
Proof.
  cbv zeta. destruct m as [k|].
  - rewrite !registerMetrics_meta. unfold result, final, events.
    cbn [fst snd filter not_unistore_init is_unistore_init negb].
    rewrite !fanout_up_to_unistore. repeat split.
    intros Hgate. cbn [set_config global_config].
    now rewrite (fanout_same_gate _ _ _ Hgate).
  - rewrite !registerMetrics_nil. norm_run. rewrite !fanout_up_to_unistore. repeat split.
    intros Hgate. cbn [set_config global_config keyspace_label].
    now rewrite (fanout_same_gate _ _ _ Hgate).
Qed.

(** With a client open, the same holds of the whole resolve-and-register
    block: the resolver does not look at the configuration at all. *)
Lemma withClient_config_change (pdCli : Client) (name : string) (w : World)
    (cfg' : Config) :
  let r := withClient pdCli name w in
  let r' := withClient pdCli name (set_config cfg' w) in
  result r' = result r
  /\ pd_state (final r') = pd_state (final r)
  /\ keyspace_label (final r') = keyspace_label (final r)
  /\ filter not_unistore_init (events r')
     = filter not_unistore_init (events r)
  /\ (String.eqb (Store cfg') "unistore"
      = String.eqb (Store (global_config w)) "unistore" ->
      events r' = events r).
Proof.
  cbv zeta. rewrite !withClient_run. cbv zeta.
  pose proof (getKeyspaceMeta_config_independent pdCli name w cfg'
                (keyspace_label w)) as Hind.
  cbv zeta in Hind. change (mkWorld (pd_state w) cfg' (keyspace_label w))
    with (set_config cfg' w) in Hind.
  destruct (getKeyspaceMeta_frame pdCli name w) as (_ & Hcfg & Hlabel).
  cbv zeta in Hcfg, Hlabel.
  rewrite Hind. norm_run.
  rewrite <- Hlabel.
  change (mkWorld (pd_state (final (getKeyspaceMeta pdCli name w))) cfg'
            (keyspace_label (final (getKeyspaceMeta pdCli name w))))
    with (set_config cfg' (final (getKeyspaceMeta pdCli name w))).
  destruct (snd (result (getKeyspaceMeta pdCli name w))).
  - norm_run. auto.
  - destruct (registerMetrics_config_change
                (fst (result (getKeyspaceMeta pdCli name w)))
                (final (getKeyspaceMeta pdCli name w)) cfg')
      as (Hr & Hf & Hfilter & Hsame).
    cbv zeta in Hr, Hf, Hfilter, Hsame.
    norm_run. rewrite Hf. rewrite !filter_app, Hfilter.
    repeat split; auto.
    intros Hgate. rewrite Hcfg in Hsame. now rewrite (Hsame Hgate).
Qed.

End ConfigurationFacts.

(** C8, as the code has it: [RegisterMetricsForBR] returns the same result,
    leaves the metadata service and the label in the same state, and
    performs the same effects under any global configuration, except for
    the unistore-specific initializer, which the shared tail runs exactly
    when the configured store is "unistore". *)
Theorem RegisterMetricsForBR_config_gates_unistore_only
    `{C : Collaborators} (pdAddrs : list string) (name : string)
    (w : World) (cfg' : Config) :
  let r := RegisterMetricsForBR pdAddrs name w in
  let r' := RegisterMetricsForBR pdAddrs name (set_config cfg' w) in
  result r' = result r
  /\ pd_state (final r') = pd_state (final r)
  /\ keyspace_label (final r') = keyspace_label (final r)
  /\ filter not_unistore_init (events r')
     = filter not_unistore_init (events r)
  /\ (String.eqb (Store cfg') "unistore"
      = String.eqb (Store (global_config w)) "unistore" ->
      events r' = events r).
Proof.
  cbv zeta. destruct (IsKeyspaceNameEmpty name) eqn:Hskip.
  - rewrite !(RegisterMetricsForBR_skip _ _ _ Hskip).
    destruct (registerMetrics_config_change None w cfg')
      as (Hr & Hf & Hfilter & Hsame).
    cbv zeta in Hr, Hf, Hfilter, Hsame. rewrite Hf. auto.
  - destruct (pd_NewClient pdAddrs emptySecurityOption
                (wrap_int64 (10 * time_Second)) (pd_state w))
      as [[cli|e] p] eqn:Hnew.
    + rewrite (RegisterMetricsForBR_client_ok _ _ w cli p Hskip Hnew).
      rewrite (RegisterMetricsForBR_client_ok _ _ (set_config cfg' w) cli p
                 Hskip Hnew).
      cbv zeta.
      destruct (withClient_config_change cli name (set_pd p w) cfg')
        as (Hr & Hp & Hl & Hfilter & Hsame).
      cbv zeta in Hr, Hp, Hl, Hfilter, Hsame.
      change (set_pd p (set_config cfg' w))
        with (set_config cfg' (set_pd p w)).
      unfold result at 1 3, final at 1 3 5 7, events at 1 3 5 7.
      cbn [fst snd filter not_unistore_init is_unistore_init negb].
      rewrite Hfilter. repeat split; auto.
      intros Hgate. now rewrite (Hsame Hgate).
    + rewrite (RegisterMetricsForBR_client_error _ _ w e p Hskip Hnew).
      rewrite (RegisterMetricsForBR_client_error _ _ (set_config cfg' w) e p
                 Hskip Hnew).
      repeat split.
Qed.

(** C8 fails as stated: the same call, against the same metadata service,
    runs one initializer more when the global configuration names the
    "unistore" store than when it names "tikv". *)
Lemma RegisterMetricsForBR_depends_on_global_store :
  pd_state (Scripted.world [] "" "unistore")
  = pd_state (Scripted.world [] "" "tikv")
  /\ events (RegisterMetricsForBR (C := Scripted.collab) ["pd0:2379"] ""
               (Scripted.world [] "" "unistore"))
     <> events (RegisterMetricsForBR (C := Scripted.collab) ["pd0:2379"] ""
                  (Scripted.world [] "" "tikv")).
Proof.
  split; [reflexivity|].
  intros Heq. apply (f_equal (count is_unistore_init)) in Heq.
  vm_compute in Heq. discriminate.
Qed.

(** C8 on the scripted service: two configurations that agree on whether
    the store is "unistore" give the same run. *)
Lemma RegisterMetricsForBR_config_gates_unistore_only_witness :
  events (RegisterMetricsForBR (C := Scripted.collab) ["pd0:2379"]
            "tenant_7"
            (set_config (Scripted.config "other" "mocktikv")
               (Scripted.world [Scripted.found 42] "" "tikv")))
  = events (RegisterMetricsForBR (C := Scripted.collab) ["pd0:2379"]
              "tenant_7" (Scripted.world [Scripted.found 42] "" "tikv")).
Proof.
  apply (RegisterMetricsForBR_config_gates_unistore_only
           (C := Scripted.collab) ["pd0:2379"] "tenant_7"
           (Scripted.world [Scripted.found 42] "" "tikv")
           (Scripted.config "other" "mocktikv")).
  reflexivity.
Defined.

(** C7 at the failing input: "UniStore" and "unistore" are the same
    backend once lower-cased, and the gate of [RegisterMetrics] treats
    them alike, yet the unistore-specific initializer runs for the second
    and not for the first, because [registerMetrics] compares the raw
    string. *)
Theorem unistore_initializer_missed_for_case_variant
    `{C : Collaborators} (w : World) (cfg : Config) :
  let withStore s :=
    set_config (mkConfig (KeyspaceName cfg) s (Path cfg) (PDClientCfg cfg)
                         (SecurityCfg cfg)) w in
  strings.ToLower mapUnicodeLower "UniStore" = "unistore"
  /\ strings.ToLower mapUnicodeLower "unistore" = "unistore"
  /\ skipsResolution (global_config (withStore "UniStore"))
     = skipsResolution (global_config (withStore "unistore"))
  /\ count is_unistore_init (events (RegisterMetrics (withStore "unistore")))
     = 1%nat
  /\ count is_unistore_init (events (RegisterMetrics (withStore "UniStore")))
     = 0%nat.
Proof.
  cbv zeta.
  assert (Hskip : forall s,
            strings.ToLower mapUnicodeLower s = "unistore" ->
            skipsResolution
              (global_config
                 (set_config (mkConfig (KeyspaceName cfg) s (Path cfg)
                                (PDClientCfg cfg) (SecurityCfg cfg)) w))
            = true).
  { intros s Hs. unfold skipsResolution. cbn [set_config global_config Store].
    rewrite Hs. apply orb_true_r. }
  split; [reflexivity | split; [reflexivity | split; [|split]]].
  - now rewrite !Hskip.
  - rewrite RegisterMetrics_skip by now apply Hskip.
    rewrite registerMetrics_nil. reflexivity.
  - rewrite RegisterMetrics_skip by now apply Hskip.
    rewrite registerMetrics_nil. reflexivity.
Qed.

(** ** End-to-end runs on the scripted service *)

(** No keyspace configured: the fan-out alone, no label. *)
Example run_without_keyspace :
  RegisterMetrics (Scripted.world [Scripted.found 42] "" "tikv")
  = (None, Scripted.world [Scripted.found 42] "" "tikv", fanout None "tikv").
Proof. vm_compute. reflexivity. Qed.

(** Keyspace "tenant_7" on a "TiKV" store, found at once with identifier
    42: every initializer runs under the label "42". *)
Example run_resolved_first_try :
  events (RegisterMetrics (Scripted.world [Scripted.found 42] "tenant_7" "TiKV"))
  = EvNewClient (C := Scripted.collab) ["pd0:2379"] emptySecurityOption
      3000000000 (inl 1%nat)
    :: EvLoadKeyspace (C := Scripted.collab) 1%nat "tenant_7"
         (Some (mkKeyspaceMeta 42)) None
    :: EvSetKeyspaceLabels "42"
    :: fanout (Some "42") "TiKV" ++ [EvClose (C := Scripted.collab) 1%nat].
Proof. vm_compute. reflexivity. Qed.

(** Two "not bootstrapped" answers, then identifier 5: two pauses, label
    "5", one close. *)
Example run_resolved_after_two_retries :
  events (RegisterMetrics
            (Scripted.world
               [Scripted.failed Scripted.errNotBootstrapped;
                Scripted.failed Scripted.errNotBootstrapped;
                Scripted.found 5] "tenant_x" "tikv"))
  = EvNewClient (C := Scripted.collab) ["pd0:2379"] emptySecurityOption
      3000000000 (inl 1%nat)
    :: EvLoadKeyspace (C := Scripted.collab) 1%nat "tenant_x" None
         (Some Scripted.errNotBootstrapped)
    :: EvSleep 500
    :: EvLoadKeyspace (C := Scripted.collab) 1%nat "tenant_x" None
         (Some Scripted.errNotBootstrapped)
    :: EvSleep 500
    :: EvLoadKeyspace (C := Scripted.collab) 1%nat "tenant_x"
         (Some (mkKeyspaceMeta 5)) None
    :: EvSetKeyspaceLabels "5"
    :: fanout (Some "5") "tikv" ++ [EvClose (C := Scripted.collab) 1%nat].
Proof. vm_compute. reflexivity. Qed.

(** A transport error: the error comes back, the client is closed, nothing
    is registered. *)
Example run_transport_error :
  RegisterMetrics
    (Scripted.world [Scripted.failed Scripted.errTransport] "tenant_x" "tikv")
  = (Some Scripted.errTransport, Scripted.world [] "tenant_x" "tikv",
     [ EvNewClient (C := Scripted.collab) ["pd0:2379"] emptySecurityOption
         3000000000 (inl 1%nat);
       EvLoadKeyspace (C := Scripted.collab) 1%nat "tenant_x" None
         (Some Scripted.errTransport);
       EvClose (C := Scripted.collab) 1%nat ]).
Proof. vm_compute. reflexivity. Qed.

(** * Further properties of the code *)

Section FurtherResolverFacts.

Context `{C : Collaborators}.

Variables (pdCli : Client) (name : string).

(** Every lookup of the loop is made on the client and for the name the
    resolver was given, and there are at most as many as the attempts
    allowed. *)
Lemma retry_loop_lookups (n : nat) (backoff : Z) :
  forall err v w,
    let r := retry_loop n backoff (loadOnce pdCli name) err v w in
    (forall e, In e (events r) -> is_lookup e = true ->
               exists m er, e = EvLoadKeyspace pdCli name m er)
    /\ (count is_lookup (events r) <= n)%nat.
Proof.
  induction n as [|n IH]; intros err v w; cbv zeta.
  - cbn. split; [tauto | lia].
  - rewrite retry_loop_step. cbv zeta.
    destruct (is_nil _ || negb _).
    + norm_run. split.
      * intros e [<-|[]] _. eauto.
      * cbn. lia.
    + specialize (IH (snd (fst (pd_LoadKeyspace pdCli name (pd_state w))))
                     (fst (fst (pd_LoadKeyspace pdCli name (pd_state w))))
                     (set_pd (snd (pd_LoadKeyspace pdCli name (pd_state w))) w)).
      cbv zeta in IH. destruct IH as [Hall Hcount].
      norm_run. split.
      * intros e [<-|Hin] Hlk; [eauto|].
        apply in_app_or in Hin. destruct Hin as [Hin|Hin]; [|eauto].
        destruct n; [contradiction|]. destruct Hin as [<-|[]]. discriminate.
      * change (count is_lookup (?a :: ?l)) with (S (count is_lookup l)).
        rewrite count_app.
        replace (count is_lookup (pause n backoff)) with 0%nat
          by (destruct n; reflexivity).
        cbn [Nat.add]. lia.
Qed.

(** What the loop returns is what its last lookup returned. *)
Lemma retry_loop_returns_last_lookup (n : nat) (backoff : Z) :
  forall err v w,
    let r := retry_loop n backoff (loadOnce pdCli name) err v w in
    (events r = [] /\ result r = (err, v))
    \/ (exists es m er,
           events r = es ++ [EvLoadKeyspace pdCli name m er]
           /\ result r = (er, m)).
Proof.
  induction n as [|n IH]; intros err v w; cbv zeta.
  - left. split; reflexivity.
  - right. rewrite retry_loop_step. cbv zeta.
    destruct (is_nil _ || negb _).
    + norm_run. exists [].
      exists (fst (fst (pd_LoadKeyspace pdCli name (pd_state w)))).
      exists (snd (fst (pd_LoadKeyspace pdCli name (pd_state w)))).
      split; reflexivity.
    + specialize (IH (snd (fst (pd_LoadKeyspace pdCli name (pd_state w))))
                     (fst (fst (pd_LoadKeyspace pdCli name (pd_state w))))
                     (set_pd (snd (pd_LoadKeyspace pdCli name (pd_state w))) w)).
      cbv zeta in IH. norm_run.
      destruct IH as [[Hnil Hres] | (es & m & er & Hev & Hres)].
      * rewrite Hnil, Hres, app_nil_r.
        destruct n as [|n'].
        -- exists [].
           exists (fst (fst (pd_LoadKeyspace pdCli name (pd_state w)))).
           exists (snd (fst (pd_LoadKeyspace pdCli name (pd_state w)))).
           split; reflexivity.
        -- exfalso. clear - Hnil. rewrite retry_loop_step in Hnil.
           cbv zeta in Hnil. destruct (is_nil _ || negb _); discriminate.
      * rewrite Hev, Hres.
        exists (EvLoadKeyspace pdCli name
                  (fst (fst (pd_LoadKeyspace pdCli name (pd_state w))))
                  (snd (fst (pd_LoadKeyspace pdCli name (pd_state w))))
                :: pause n backoff ++ es), m, er.
        split; [|reflexivity].
        now rewrite app_comm_cons, app_assoc.
Qed.

(** After [k] retryable failures and then an answer without error, with
    attempts to spare, the loop returns that answer after [k + 1]
    lookups. *)
Lemma retry_loop_succeeds_after_failures (backoff : Z) :
  forall k p p',
    retryable_failures pdCli name k p p' ->
    forall n err v w m p'',
      pd_state w = p ->
      pd_LoadKeyspace pdCli name p' = ((m, None), p'') ->
      (k < n)%nat ->
      let r := retry_loop n backoff (loadOnce pdCli name) err v w in
      result r = (None, m)
      /\ final r = set_pd p'' w
      /\ count is_lookup (events r) = S k.
Proof.
  induction 1 as [p | k p m0 e p1 p' Hcall Hretry Hrest IH];
    intros n err v w m p'' Hw Hlast Hlt; cbv zeta;
    (destruct n as [|n]; [lia|]); rewrite retry_loop_step; cbv zeta;
    rewrite Hw.
  - rewrite Hlast. cbn [fst snd is_nil orb]. norm_run. auto.
  - rewrite Hcall. cbn [fst snd is_nil orb]. rewrite Hretry. cbn [negb].
    destruct (IH n (Some e) m0 (set_pd p1 w) m p'' eq_refl Hlast
                ltac:(lia)) as (Hres & Hfin & Hcount).
    norm_run. rewrite Hres, Hfin. repeat split.
    change (count is_lookup (?a :: ?l)) with (S (count is_lookup l)).
    rewrite count_app, Hcount.
    replace (count is_lookup (pause n backoff)) with 0%nat
      by (destruct n; reflexivity).
    reflexivity.
Qed.

End FurtherResolverFacts.

Section FurtherEntryPointFacts.

Context `{C : Collaborators}.

Lemma filter_none (p q : Event -> bool) (es : list Event) :
  forallb q es = true ->
  (forall e, q e = true -> p e = false) ->
  filter p es = [].
Proof.
  intros Hq Hpq. apply length_zero_iff_nil.
  exact (count_disjoint p q es Hq Hpq).
Qed.

Lemma filter_all (p : Event -> bool) (es : list Event) :
  forallb p es = true -> filter p es = es.
Proof.
  induction es as [|e es IH]; [reflexivity|].
  cbn. intros H. apply andb_prop in H. destruct H as [He Hes].
  rewrite He. now rewrite IH.
Qed.

Lemma resolver_not_init (e : Event) :
  is_resolver_event e = true -> is_init e = false.
Proof. destruct e; cbn; congruence. Qed.

Lemma resolver_not_set_label (e : Event) :
  is_resolver_event e = true -> is_set_label e = false.
Proof. destruct e; cbn; congruence. Qed.

Lemma resolver_is_resolution_phase (e : Event) :
  is_resolver_event e = true -> is_resolution_phase e = true.
Proof. unfold is_resolution_phase. intros ->. apply orb_true_r. Qed.

Lemma init_not_set_label (e : Event) :
  is_init e = true -> is_set_label e = false.
Proof. destruct e; cbn; congruence. Qed.

Lemma init_not_new_client (e : Event) :
  is_init e = true -> is_new_client e = false.
Proof. destruct e; cbn; congruence. Qed.

Lemma fanout_registration (label : option string) (store : string) :
  forallb is_registration (fanout label store) = true.
Proof.
  apply forallb_forall. intros e He. apply fanout_labels in He.
  destruct He as [i ->]. reflexivity.
Qed.

(** What the resolver returns is what its last lookup returned; with no
    lookup at all it returns neither metadata nor error. *)
Lemma getKeyspaceMeta_returns_last_lookup (pdCli : Client) (name : string)
    (w : World) :
  let g := getKeyspaceMeta pdCli name w in
  (events g = [] /\ result g = (None, None))
  \/ (exists es m er,
         events g = es ++ [EvLoadKeyspace pdCli name m er]
         /\ result g = (match er with Some _ => None | None => m end, er)).
Proof.
  cbv zeta. rewrite getKeyspaceMeta_run. cbv zeta. norm_run.
  destruct (retry_loop_returns_last_lookup pdCli name
              (Z.to_nat DefaultMaxRetries) RetryInterval None None w)
    as [[Hnil Hres] | (es & m & er & Hev & Hres)].
  - left. rewrite Hnil, Hres. split; reflexivity.
  - right. exists es, m, er. rewrite Hev, Hres. split; [reflexivity|].
    destruct er; reflexivity.
Qed.

(** The shared block, by the three outcomes of the resolution. *)
Lemma withClient_cases (pdCli : Client) (name : string) (w : World) :
  let g := getKeyspaceMeta pdCli name w in
  (exists e,
      result g = (None, Some e)
      /\ withClient pdCli name w
         = (Some e, set_pd (pd_Close pdCli (pd_state (final g))) (final g),
            events g ++ [EvClose pdCli]))
  \/ (result g = (None, None)
      /\ withClient pdCli name w
         = (None, set_pd (pd_Close pdCli (pd_state (final g))) (final g),
            events g
            ++ fanout (keyspace_label w) (Store (global_config w))
            ++ [EvClose pdCli]))
  \/ (exists k,
         result g = (Some k, None)
         /\ withClient pdCli name w
            = (None,
               set_pd (pd_Close pdCli (pd_state (final g)))
                      (set_label (Some (fmt_Sprint (GetId k))) (final g)),
               events g
               ++ (EvSetKeyspaceLabels (fmt_Sprint (GetId k))
                   :: fanout (Some (fmt_Sprint (GetId k)))
                             (Store (global_config w)))
               ++ [EvClose pdCli])).
Proof.
  cbv zeta. rewrite withClient_run. cbv zeta.
  destruct (getKeyspaceMeta_frame pdCli name w) as (_ & Hcfg & Hlabel).
  cbv zeta in Hcfg, Hlabel.
  destruct (getKeyspaceMeta_returns_last_lookup pdCli name w)
    as [[_ Hres] | (es & m & er & _ & Hres)];
    cbv zeta in Hres; rewrite Hres; cbn [fst snd].
  - right. left. split; [reflexivity|].
    rewrite registerMetrics_nil, Hcfg, Hlabel. reflexivity.
  - destruct er as [e|].
    + left. exists e. split; reflexivity.
    + right. destruct m as [k|].
      * right. exists k. split; [reflexivity|].
        rewrite registerMetrics_meta, Hcfg. reflexivity.
      * left. split; [reflexivity|].
        rewrite registerMetrics_nil, Hcfg, Hlabel. reflexivity.
Qed.

Lemma RegisterMetrics_entry_run (w : World) :
  entry_run (KeyspaceName (global_config w)) w (RegisterMetrics w).
Proof.
  destruct (RegisterMetrics_cases w)
    as [Hskip | [(Hskip & e & Hparse) | (Hskip & Hparse & r & p & Hnew)]].
  - rewrite (RegisterMetrics_skip w Hskip). constructor.
  - rewrite (RegisterMetrics_parse_error w e Hskip Hparse). constructor.
  - destruct r as [cli|e].
    + rewrite (RegisterMetrics_client_ok w cli p Hskip Hparse Hnew).
      constructor.
    + rewrite (RegisterMetrics_client_error w e p Hskip Hparse Hnew).
      constructor.
Qed.

Lemma RegisterMetricsForBR_entry_run (pdAddrs : list string)
    (name : string) (w : World) :
  entry_run name w (RegisterMetricsForBR pdAddrs name w).
Proof.
  destruct (IsKeyspaceNameEmpty name) eqn:Hskip.
  - rewrite (RegisterMetricsForBR_skip _ _ w Hskip). constructor.
  - destruct (pd_NewClient pdAddrs emptySecurityOption
                (wrap_int64 (10 * time_Second)) (pd_state w))
      as [[cli|e] p] eqn:Hnew.
    + rewrite (RegisterMetricsForBR_client_ok _ _ w cli p Hskip Hnew).
      constructor.
    + rewrite (RegisterMetricsForBR_client_error _ _ w e p Hskip Hnew).
      constructor.
Qed.

(** A run that returns nil has run the whole fan-out, once, in order, and
    under the label in force when it returns. *)
Lemma entry_run_complete (name : string) (w : World)
    (r : option Error * World * list Event) :
  entry_run name w r ->
  result r = None ->
  filter is_init (events r)
  = fanout (keyspace_label (final r)) (Store (global_config w)).
Proof.
  intros [ | e | a s t e p | a s t c p].
  - rewrite registerMetrics_nil. norm_run. intros _.
    apply filter_all, fanout_all_init.
  - discriminate.
  - discriminate.
  - norm_run. intros Hres.
    destruct (getKeyspaceMeta_frame c name (set_pd p w)) as (Hev & _ & _).
    cbv zeta in Hev.
    destruct (withClient_cases c name (set_pd p w))
      as [(e & _ & Hrun) | [(_ & Hrun) | (k & _ & Hrun)]];
      cbv zeta in Hrun; rewrite Hrun in Hres |- *; norm_run.
    + discriminate.
    + cbn [filter is_init]. rewrite !filter_app.
      rewrite (filter_none _ _ _ Hev resolver_not_init).
      rewrite (filter_all _ _ (fanout_all_init _ _)).
      destruct (getKeyspaceMeta_frame c name (set_pd p w)) as (_ & _ & Hl).
      cbv zeta in Hl.
      cbn [filter is_init app set_pd keyspace_label global_config].
      rewrite Hl. cbn [set_pd keyspace_label]. now rewrite app_nil_r.
    + cbn [filter is_init]. rewrite !filter_app.
      rewrite (filter_none _ _ _ Hev resolver_not_init).
      cbn [filter is_init app].
      rewrite (filter_all _ _ (fanout_all_init _ _)).
      cbn [filter is_init app set_pd set_label keyspace_label global_config].
      now rewrite app_nil_r.
Qed.

(** A run is made of three phases in this order: resolution, registration,
    closing the client. *)
Lemma entry_run_phases (name : string) (w : World)
    (r : option Error * World * list Event) :
  entry_run name w r ->
  exists pre reg post,
    events r = pre ++ reg ++ post
    /\ forallb is_resolution_phase pre = true
    /\ forallb is_registration reg = true
    /\ (post = [] \/ exists c, post = [EvClose c]).
Proof.
  intros [ | e | a s t e p | a s t c p].
  - exists [], (events (registerMetrics None w)), [].
    rewrite app_nil_r. repeat split; auto. apply registerMetrics_events.
  - exists [], [], []. repeat split; auto.
  - exists [EvNewClient a s t (inr e)], [], []. repeat split; auto.
  - norm_run.
    destruct (getKeyspaceMeta_frame c name (set_pd p w)) as (Hev & _ & _).
    cbv zeta in Hev.
    assert (Hpre : forallb is_resolution_phase
                     (EvNewClient a s t (inl c)
                      :: events (getKeyspaceMeta c name (set_pd p w)))
                   = true).
    { cbn [forallb]. apply andb_true_intro. split; [reflexivity|].
      apply forallb_forall. intros e He. apply resolver_is_resolution_phase.
      rewrite forallb_forall in Hev. auto. }
    destruct (withClient_cases c name (set_pd p w))
      as [(e & _ & Hrun) | [(_ & Hrun) | (k & _ & Hrun)]];
      cbv zeta in Hrun; rewrite Hrun; norm_run.
    + exists (EvNewClient a s t (inl c)
              :: events (getKeyspaceMeta c name (set_pd p w))), [],
        [EvClose c].
      repeat split; eauto.
    + eexists (EvNewClient a s t (inl c)
               :: events (getKeyspaceMeta c name (set_pd p w))), _,
        [EvClose c].
      split; [reflexivity|]. split; [exact Hpre|].
      split; [apply fanout_registration | eauto].
    + eexists (EvNewClient a s t (inl c)
               :: events (getKeyspaceMeta c name (set_pd p w))), _,
        [EvClose c].
      split; [reflexivity|]. split; [exact Hpre|].
      split; [|eauto]. cbn [forallb]. apply andb_true_intro.
      split; [reflexivity | apply fanout_registration].
Qed.

(** A run leaves the configuration alone, opens at most one client, and
    sets the label at most once, then to the numeral of the identifier in
    metadata that a lookup returned without error; with no label set the
    label stays as it was. *)
Lemma entry_run_frame (name : string) (w : World)
    (r : option Error * World * list Event) :
  entry_run name w r ->
  global_config (final r) = global_config w
  /\ (count is_new_client (events r) <= 1)%nat
  /\ (count is_set_label (events r) <= 1)%nat
  /\ (count is_set_label (events r) = 0%nat ->
      keyspace_label (final r) = keyspace_label w)
  /\ (forall v,
         In (EvSetKeyspaceLabels v) (events r) ->
         keyspace_label (final r) = Some v
         /\ exists c m,
              In (EvLoadKeyspace c name (Some m) None) (events r)
              /\ v = fmt_Sprint (Id m)).
Proof.
  assert (Hfan : forall l st, count is_set_label (fanout l st) = 0%nat
                              /\ count is_new_client (fanout l st) = 0%nat).
  { intros l st. split.
    - apply (count_disjoint _ _ _ (fanout_all_init l st) init_not_set_label).
    - apply (count_disjoint _ _ _ (fanout_all_init l st) init_not_new_client). }
  assert (Hnofan : forall l st v, ~ In (EvSetKeyspaceLabels v) (fanout l st)).
  { intros l st v Hin. apply fanout_labels in Hin. destruct Hin as [i Hi].
    discriminate. }
  intros [ | e | a s t e p | a s t c p].
  - rewrite registerMetrics_nil. norm_run.
    destruct (Hfan (keyspace_label w) (Store (global_config w))) as [Hs Hn].
    rewrite Hs, Hn. repeat split; auto.
    all: exfalso; eapply Hnofan; eauto.
  - norm_run. cbn -[fanout fmt_Sprint getKeyspaceMeta]. repeat split; auto; contradiction.
  - norm_run. cbn -[fanout fmt_Sprint getKeyspaceMeta]. repeat split; auto.
    all: destruct H as [H|[]]; discriminate.
  - norm_run.
    destruct (getKeyspaceMeta_frame c name (set_pd p w)) as (Hev & Hcfg & Hl).
    cbv zeta in Hev, Hcfg, Hl.
    pose proof (count_disjoint _ _ _ Hev resolver_not_set_label) as Hgs.
    pose proof (count_disjoint _ _ _ Hev resolver_not_new_client) as Hgn.
    assert (Hnog : forall v,
               ~ In (EvSetKeyspaceLabels v)
                    (events (getKeyspaceMeta c name (set_pd p w)))).
    { intros v Hin. apply (count_zero_In _ _ _ Hgs) in Hin. discriminate. }
    destruct (withClient_cases c name (set_pd p w))
      as [(e & _ & Hrun) | [(_ & Hrun) | (k & Hres & Hrun)]];
      cbv zeta in *; rewrite Hrun; norm_run;
      change (count ?q (EvNewClient a s t (inl c) :: ?l))
        with (if q (EvNewClient a s t (inl c)) then S (count q l)
              else count q l);
      cbn [is_new_client is_set_label];
      rewrite ?count_app, ?Hgs, ?Hgn.
    + cbn -[fanout fmt_Sprint getKeyspaceMeta]. repeat split; auto.
      all: destruct H as [H|H]; [discriminate|].
      all: apply in_app_or in H; destruct H as [H|[H|[]]];
        [exfalso; eapply Hnog; eauto | discriminate].
    + rewrite (proj1 (Hfan _ _)), (proj2 (Hfan _ _)).
      cbn -[fanout fmt_Sprint getKeyspaceMeta]. repeat split; auto.
      all: destruct H as [H|H]; [discriminate|].
      all: apply in_app_or in H; destruct H as [H|H];
        [exfalso; eapply Hnog; eauto|].
      all: apply in_app_or in H; destruct H as [H|[H|[]]];
        [exfalso; eapply Hnofan; eauto | discriminate].
    + change (count ?q (EvSetKeyspaceLabels ?x :: ?l))
        with (if q (EvSetKeyspaceLabels x) then S (count q l)
              else count q l).
      cbn [is_new_client is_set_label].
      rewrite (proj1 (Hfan _ _)), (proj2 (Hfan _ _)).
      cbn -[fanout fmt_Sprint getKeyspaceMeta]. repeat split; auto; try discriminate.
      all: destruct H as [H|H]; [discriminate|].
      all: apply in_app_or in H; destruct H as [H|H];
        [exfalso; eapply Hnog; eauto|].
      all: destruct H as [H|H];
        [| apply in_app_or in H; destruct H as [H|[H|[]]];
           [exfalso; eapply Hnofan; eauto | discriminate]].
      all: inversion H; subst v.
      * reflexivity.
      * destruct (getKeyspaceMeta_returns_last_lookup c name (set_pd p w))
          as [[_ Hr] | (es & m & er & Hlast & Hr)];
          cbv zeta in *; rewrite Hres in Hr; [discriminate|].
        destruct er as [e|]; [discriminate|].
        inversion Hr; subst m.
        exists c, k. split; [|reflexivity].
        right. apply in_or_app. left. rewrite Hlast.
        apply in_or_app. right. now left.
Qed.

End FurtherEntryPointFacts.

Section StoreFacts.

Context `{C : Collaborators}.

Lemma lowerBytes_no_upper (s : string) :
  strings.hasUpper s = false -> strings.lowerBytes s = s.
Proof.
  induction s as [|c s IH]; [reflexivity|].
  cbn. intros H. apply orb_false_elim in H. destruct H as [Hc Hs].
  unfold strings.lowerByte. rewrite Hc. now rewrite IH.
Qed.

(** On a string of ASCII bytes [strings.ToLower] is the byte-wise
    lower-casing, whatever the Unicode tables say. *)
Lemma ToLower_ascii (f : string -> string) (s : string) :
  strings.isASCII s = true -> strings.ToLower f s = strings.lowerBytes s.
Proof.
  intros Hascii. unfold strings.ToLower. rewrite Hascii.
  destruct (strings.hasUpper s) eqn:Hup; [reflexivity|].
  symmetry. now apply lowerBytes_no_upper.
Qed.

(** [RegisterMetrics] reads the store through its two comparisons only:
    another store with the same two answers gives the same run. *)
Lemma RegisterMetrics_store_change (w : World) (s' : string) :
  let cfg := global_config w in
  let w' := set_config (with_store s' cfg) w in
  skipsResolution (with_store s' cfg) = skipsResolution cfg ->
  String.eqb s' "unistore" = String.eqb (Store cfg) "unistore" ->
  result (RegisterMetrics w') = result (RegisterMetrics w)
  /\ events (RegisterMetrics w') = events (RegisterMetrics w)
  /\ pd_state (final (RegisterMetrics w'))
     = pd_state (final (RegisterMetrics w))
  /\ keyspace_label (final (RegisterMetrics w'))
     = keyspace_label (final (RegisterMetrics w)).
Proof.
  cbv zeta. intros Hgate Huni.
  destruct (RegisterMetrics_cases w)
    as [Hskip | [(Hskip & e & Hparse) | (Hskip & Hparse & r & p & Hnew)]].
  - rewrite (RegisterMetrics_skip w Hskip).
    rewrite (RegisterMetrics_skip (set_config _ w))
      by (cbn [set_config global_config]; now rewrite Hgate).
    rewrite !registerMetrics_nil. norm_run.
    cbn [set_config global_config keyspace_label pd_state with_store Store].
    now rewrite (fanout_same_gate _ _ _ Huni).
  - rewrite (RegisterMetrics_parse_error w e Hskip Hparse).
    rewrite (RegisterMetrics_parse_error (set_config _ w) e)
      by (cbn [set_config global_config];
          first [now rewrite Hgate | exact Hparse]).
    norm_run. auto.
  - assert (Hskip' : skipsResolution
                       (global_config
                          (set_config (with_store s' (global_config w)) w))
                     = false)
      by (cbn [set_config global_config]; now rewrite Hgate).
    destruct r as [cli|e].
    + rewrite (RegisterMetrics_client_ok w cli p Hskip Hparse Hnew).
      rewrite (RegisterMetrics_client_ok (set_config _ w) cli p Hskip'
                 Hparse Hnew).
      cbv zeta. norm_run.
      destruct (withClient_config_change cli
                  (KeyspaceName (global_config w)) (set_pd p w)
                  (with_store s' (global_config w)))
        as (Hr & Hp & Hl & _ & Hsame).
      cbv zeta in Hr, Hp, Hl, Hsame.
      change (set_config (with_store s' (global_config w)) (set_pd p w))
        with (set_pd p (set_config (with_store s' (global_config w)) w))
        in Hr, Hp, Hl, Hsame.
      change (KeyspaceName
                (global_config
                   (set_config (with_store s' (global_config w)) w)))
        with (KeyspaceName (global_config w)).
      rewrite Hr, Hp, Hl, (Hsame Huni). repeat split.
    + rewrite (RegisterMetrics_client_error w e p Hskip Hparse Hnew).
      rewrite (RegisterMetrics_client_error (set_config _ w) e p Hskip'
                 Hparse Hnew).
      norm_run. repeat split.
Qed.

(** With a client open and a first lookup that returns metadata, the label
    is set to the numeral of its identifier and the fan-out runs under
    it. *)
Lemma withClient_first_success (pdCli : Client) (name : string) (w : World)
    (k : KeyspaceMeta) (p : PD) :
  0 < DefaultMaxRetries ->
  pd_LoadKeyspace pdCli name (pd_state w) = ((Some k, None), p) ->
  withClient pdCli name w
  = (None,
     set_pd (pd_Close pdCli p) (set_label (Some (fmt_Sprint (GetId k))) w),
     EvLoadKeyspace pdCli name (Some k) None
     :: EvSetKeyspaceLabels (fmt_Sprint (GetId k))
     :: fanout (Some (fmt_Sprint (GetId k))) (Store (global_config w))
     ++ [EvClose pdCli]).
Proof.
  intros Hpos Hcall. rewrite withClient_run. cbv zeta.
  rewrite (getKeyspaceMeta_first_success pdCli name w (Some k) p Hpos Hcall).
  norm_run. cbn [fst snd]. rewrite registerMetrics_meta. reflexivity.
Qed.

End StoreFacts.

Lemma is_entry_run_shape `{C : Collaborators} (name : string) (w : World)
    (r : option Error * World * list Event) :
  is_entry_run name w r -> entry_run name w r.
Proof.
  intros [[-> ->] | [pdAddrs ->]].
  - apply RegisterMetrics_entry_run.
  - apply RegisterMetricsForBR_entry_run.
Qed.

Lemma wrap_int64_small (z : Z) :
  - 2 ^ 63 <= z < 2 ^ 63 -> wrap_int64 z = z.
Proof.
  intros Hz. unfold wrap_int64. rewrite Z.mod_small; lia.
Qed.

(** ** The resolver, further *)

(** X1: every lookup [getKeyspaceMeta] makes is on the client and for the
    keyspace name it was given, and it never makes more than
    [DefaultMaxRetries] of them. *)
Theorem getKeyspaceMeta_lookups_bounded
    `{C : Collaborators} (pdCli : Client) (name : string) (w : World) :
  let r := getKeyspaceMeta pdCli name w in
  (forall e, In e (events r) -> is_lookup e = true ->
             exists m er, e = EvLoadKeyspace pdCli name m er)
  /\ Z.of_nat (count is_lookup (events r)) <= Z.max 0 DefaultMaxRetries.
Proof.
  cbv zeta. rewrite getKeyspaceMeta_run. cbv zeta. norm_run.
  destruct (retry_loop_lookups pdCli name (Z.to_nat DefaultMaxRetries)
              RetryInterval None None w) as [Hall Hcount].
  split; [exact Hall | lia].
Qed.

(** X2: with at least one attempt allowed, [getKeyspaceMeta] returns what
    its last lookup returned: that lookup's error, with that lookup's
    metadata when the error is nil and nil metadata otherwise. *)
Theorem getKeyspaceMeta_returns_last_answer
    `{C : Collaborators} (pdCli : Client) (name : string) (w : World) :
  0 < DefaultMaxRetries ->
  let r := getKeyspaceMeta pdCli name w in
  exists es1 es2 m er,
    events r = es1 ++ EvLoadKeyspace pdCli name m er :: es2
    /\ count is_lookup es2 = 0%nat
    /\ result r = (match er with Some _ => None | None => m end, er).
Proof.
  intros Hpos. cbv zeta.
  destruct (getKeyspaceMeta_returns_last_lookup pdCli name w)
    as [[Hnil _] | (es & m & er & Hev & Hres)].
  - exfalso. cbv zeta in Hnil. rewrite getKeyspaceMeta_run in Hnil.
    cbv zeta in Hnil. unfold events in Hnil; cbn [snd] in Hnil.
    destruct (Z.to_nat DefaultMaxRetries) as [|n] eqn:Hn; [lia|].
    rewrite retry_loop_step in Hnil. cbv zeta in Hnil.
    destruct (is_nil _ || negb _); discriminate.
  - exists es, [], m, er. auto.
Qed.

(** X2 on the scripted service: metadata returned together with an error
    is dropped. *)
Lemma getKeyspaceMeta_returns_last_answer_witness :
  let r := getKeyspaceMeta (C := Scripted.collab) 1%nat "tenant_x"
             (Scripted.world
                [(Some (mkKeyspaceMeta 9), Some Scripted.errTransport)]
                "tenant_x" "tikv") in
  exists es1 es2 m er,
    events r = es1 ++ EvLoadKeyspace (C := Scripted.collab) 1%nat
                        "tenant_x" m er :: es2
    /\ count is_lookup es2 = 0%nat
    /\ result r = (match er with Some _ => None | None => m end, er).
Proof.
  apply (getKeyspaceMeta_returns_last_answer (C := Scripted.collab)).
  reflexivity.
Defined.

(** X3: when the lookup fails [k] times in a row with a retryable error
    and then answers without error, and [k] is below
    [DefaultMaxRetries], [getKeyspaceMeta] returns that answer after
    exactly [k + 1] lookups. *)
Theorem getKeyspaceMeta_succeeds_after_failures
    `{C : Collaborators} (pdCli : Client) (name : string) (w : World)
    (k : nat) (p' p'' : PD) (m : option KeyspaceMeta) :
  retryable_failures pdCli name k (pd_state w) p' ->
  pd_LoadKeyspace pdCli name p' = ((m, None), p'') ->
  Z.of_nat k < DefaultMaxRetries ->
  let r := getKeyspaceMeta pdCli name w in
  result r = (m, None)
  /\ final r = set_pd p'' w
  /\ count is_lookup (events r) = S k.
Proof.
  intros Hfail Hlast Hlt. cbv zeta. rewrite getKeyspaceMeta_run.
  cbv zeta. norm_run.
  destruct (retry_loop_succeeds_after_failures pdCli name RetryInterval
              k (pd_state w) p' Hfail (Z.to_nat DefaultMaxRetries)
              None None w m p'' eq_refl Hlast ltac:(lia))
    as (Hres & Hfin & Hcount).
  rewrite Hres, Hfin, Hcount. auto.
Qed.

(** X3 on the scripted service: two "not bootstrapped" answers, then
    identifier 5, with three attempts allowed. *)
Lemma getKeyspaceMeta_succeeds_after_failures_witness :
  let r := getKeyspaceMeta (C := Scripted.collab) 1%nat "tenant_x"
             (Scripted.world
                [Scripted.failed Scripted.errNotBootstrapped;
                 Scripted.failed Scripted.errKeyspaceNotExist;
                 Scripted.found 5] "tenant_x" "tikv") in
  result r = (Some (mkKeyspaceMeta 5), None)
  /\ final r = Scripted.world [] "tenant_x" "tikv"
  /\ count is_lookup (events r) = 3%nat.
Proof.
  apply (getKeyspaceMeta_succeeds_after_failures (C := Scripted.collab)
           1%nat "tenant_x"
           (Scripted.world
              [Scripted.failed Scripted.errNotBootstrapped;
               Scripted.failed Scripted.errKeyspaceNotExist;
               Scripted.found 5] "tenant_x" "tikv")
           2 [Scripted.found 5] []).
  - eapply (failures_more (C := Scripted.collab)); [reflexivity..|].
    eapply (failures_more (C := Scripted.collab)); [reflexivity..|].
    apply (failures_none (C := Scripted.collab)).
  - reflexivity.
  - reflexivity.
Defined.

(** ** The entry points, further *)

(** X4: [RegisterMetricsForBR] with an empty keyspace name opens no
    client and makes no lookup, whatever addresses it is given: it runs
    the fan-out under the label already in force and returns nil. *)
Theorem RegisterMetricsForBR_skips_resolution
    `{C : Collaborators} (pdAddrs : list string) (name : string)
    (w : World) :
  IsKeyspaceNameEmpty name = true ->
  let r := RegisterMetricsForBR pdAddrs name w in
  r = (None, w, fanout (keyspace_label w) (Store (global_config w)))
  /\ count is_new_client (events r) = 0%nat
  /\ count is_lookup (events r) = 0%nat
  /\ count is_set_label (events r) = 0%nat.
Proof.
  intros Hskip. cbv zeta.
  rewrite (RegisterMetricsForBR_skip _ _ w Hskip), registerMetrics_nil.
  norm_run.
  pose proof (fanout_all_init (keyspace_label w) (Store (global_config w)))
    as Hinit.
  repeat split; apply (count_disjoint _ _ _ Hinit); now intros [].
Qed.

(** X4 on the scripted service. *)
Lemma RegisterMetricsForBR_skips_resolution_witness :
  count is_new_client
    (events (RegisterMetricsForBR (C := Scripted.collab) ["pd0:2379"] ""
               (Scripted.world [Scripted.found 42] "tenant_7" "tikv")))
  = 0%nat.
Proof.
  apply (RegisterMetricsForBR_skips_resolution (C := Scripted.collab)
           ["pd0:2379"] ""
           (Scripted.world [Scripted.found 42] "tenant_7" "tikv")).
  reflexivity.
Defined.

(** X5: [RegisterMetricsForBR] with a keyspace name that is not empty
    constructs a client first thing, whatever store the global
    configuration names: from the addresses it was given, with no
    security material and a timeout of ten seconds; it constructs no
    other. *)
Theorem RegisterMetricsForBR_always_dials
    `{C : Collaborators} (pdAddrs : list string) (name : string)
    (w : World) :
  IsKeyspaceNameEmpty name = false ->
  exists rest,
    events (RegisterMetricsForBR pdAddrs name w)
    = EvNewClient pdAddrs (mkSecurityOption "" "" "") 10000000000
        (fst (pd_NewClient pdAddrs (mkSecurityOption "" "" "") 10000000000
                (pd_state w)))
      :: rest
    /\ count is_new_client rest = 0%nat.
Proof.
  intros Hskip.
  change 10000000000 with (wrap_int64 (10 * time_Second)).
  change (mkSecurityOption "" "" "") with emptySecurityOption.
  destruct (pd_NewClient pdAddrs emptySecurityOption
              (wrap_int64 (10 * time_Second)) (pd_state w))
    as [[cli|e] p] eqn:Hnew.
  - rewrite (RegisterMetricsForBR_client_ok _ _ w cli p Hskip Hnew).
    cbv zeta. norm_run. eexists. split; [reflexivity|].
    destruct (withClient_closes_last cli name (set_pd p w))
      as (mid & -> & _ & Hmid).
    rewrite count_app, Hmid. reflexivity.
  - rewrite (RegisterMetricsForBR_client_error _ _ w e p Hskip Hnew).
    norm_run. eexists. split; reflexivity.
Qed.

(** X5 on the scripted service, with a "unistore" store configured. *)
Lemma RegisterMetricsForBR_always_dials_witness :
  exists rest,
    events (RegisterMetricsForBR (C := Scripted.collab) ["pd0:2379"]
              "tenant_7"
              (Scripted.world [Scripted.found 42] "" "unistore"))
    = EvNewClient (C := Scripted.collab) ["pd0:2379"]
        (mkSecurityOption "" "" "") 10000000000
        (fst (pd_NewClient (Collaborators := Scripted.collab) ["pd0:2379"]
                (mkSecurityOption "" "" "") 10000000000
                [Scripted.found 42]))
      :: rest
    /\ count is_new_client rest = 0%nat.
Proof.
  apply (RegisterMetricsForBR_always_dials (C := Scripted.collab)
           ["pd0:2379"] "tenant_7"
           (Scripted.world [Scripted.found 42] "" "unistore")).
  reflexivity.
Defined.

(** X6: a client that [RegisterMetrics] constructs is built from the
    global configuration: the addresses parsed from "tikv://" followed by
    the path, the three cluster SSL paths as CA, certificate and key, and
    the PD server timeout in seconds, which is exact for values up to
    9223372036. Resolution was not skipped and the path parsed. *)
Theorem RegisterMetrics_client_from_configuration
    `{C : Collaborators} (w : World) (addrs : list string)
    (sec : SecurityOption) (tm : Z) (res : Client + Error) :
  In (EvNewClient addrs sec tm res) (events (RegisterMetrics w)) ->
  let cfg := global_config w in
  skipsResolution cfg = false
  /\ ParsePath ("tikv://" ++ Path cfg)%string
     = (addrs, snd (fst (fst (ParsePath ("tikv://" ++ Path cfg)%string))),
        snd (fst (ParsePath ("tikv://" ++ Path cfg)%string)), None)
  /\ sec = mkSecurityOption (ClusterSSLCA (SecurityCfg cfg))
                            (ClusterSSLCert (SecurityCfg cfg))
                            (ClusterSSLKey (SecurityCfg cfg))
  /\ tm = wrap_int64 (wrap_int64 (PDServerTimeout (PDClientCfg cfg))
                      * 1000000000)
  /\ (0 <= PDServerTimeout (PDClientCfg cfg) <= 9223372036 ->
      tm = PDServerTimeout (PDClientCfg cfg) * 1000000000)
  /\ res = fst (pd_NewClient addrs sec tm (pd_state w)).
Proof.
  cbv zeta.
  assert (Hargs : skipsResolution (global_config w) = false ->
                  parseError (global_config w) = None ->
                  addrs = parsedAddrs (global_config w) ->
                  sec = configuredSecurity (global_config w) ->
                  tm = configuredTimeout (global_config w) ->
                  res = fst (pd_NewClient addrs sec tm (pd_state w)) ->
                  skipsResolution (global_config w) = false
                  /\ ParsePath ("tikv://" ++ Path (global_config w))%string
                     = (addrs,
                        snd (fst (fst (ParsePath
                                         ("tikv://"
                                          ++ Path (global_config w))%string))),
                        snd (fst (ParsePath
                                    ("tikv://"
                                     ++ Path (global_config w))%string)),
                        None)
                  /\ sec = mkSecurityOption
                             (ClusterSSLCA (SecurityCfg (global_config w)))
                             (ClusterSSLCert (SecurityCfg (global_config w)))
                             (ClusterSSLKey (SecurityCfg (global_config w)))
                  /\ tm = wrap_int64
                            (wrap_int64
                               (PDServerTimeout (PDClientCfg (global_config w)))
                             * 1000000000)
                  /\ (0 <= PDServerTimeout (PDClientCfg (global_config w))
                      <= 9223372036 ->
                      tm = PDServerTimeout (PDClientCfg (global_config w))
                           * 1000000000)
                  /\ res = fst (pd_NewClient addrs sec tm (pd_state w))).
  { intros Hskip Hparse -> -> -> ->.
    unfold parseError, parsedAddrs in *.
    destruct (ParsePath _) as [[[a gc] ks] err]. cbn [fst snd] in *.
    subst err. split; [exact Hskip|].
    do 3 (split; [reflexivity|]). split; [|reflexivity].
    intros Hrange. unfold configuredTimeout, time_Second.
    rewrite (wrap_int64_small (PDServerTimeout _)) by lia.
    apply wrap_int64_small. lia. }
  destruct (RegisterMetrics_cases w)
    as [Hskip | [(Hskip & e & Hparse) | (Hskip & Hparse & r & p & Hnew)]].
  - rewrite (RegisterMetrics_skip w Hskip), registerMetrics_nil.
    intros Hin. apply fanout_labels in Hin. destruct Hin as [i Hi].
    discriminate.
  - rewrite (RegisterMetrics_parse_error w e Hskip Hparse). intros [].
  - destruct r as [cli|e].
    + rewrite (RegisterMetrics_client_ok w cli p Hskip Hparse Hnew).
      cbv zeta. norm_run. intros [Heq|Hin].
      * inversion Heq; subst. apply Hargs; auto. now rewrite Hnew.
      * exfalso.
        destruct (withClient_closes_last cli
                    (KeyspaceName (global_config w)) (set_pd p w))
          as (mid & Hmid & _ & Hcount).
        rewrite Hmid in Hin. apply in_app_or in Hin.
        destruct Hin as [Hin|[Hin|[]]]; [|discriminate].
        apply (count_zero_In _ _ _ Hcount) in Hin. discriminate.
    + rewrite (RegisterMetrics_client_error w e p Hskip Hparse Hnew).
      norm_run. intros [Heq|[]].
      inversion Heq; subst. apply Hargs; auto. now rewrite Hnew.
Qed.

(** X6 on the scripted service: three seconds are 3000000000
    nanoseconds. *)
Lemma RegisterMetrics_client_from_configuration_witness :
  let cfg := Scripted.config "tenant_7" "tikv" in
  skipsResolution (C := Scripted.collab) cfg = false
  /\ ParsePath (Collaborators := Scripted.collab) ("tikv://" ++ Path cfg)%string
     = (["pd0:2379"],
        snd (fst (fst (ParsePath (Collaborators := Scripted.collab) ("tikv://" ++ Path cfg)%string))),
        snd (fst (ParsePath (Collaborators := Scripted.collab) ("tikv://" ++ Path cfg)%string)), None)
  /\ mkSecurityOption "" "" ""
     = mkSecurityOption (ClusterSSLCA (SecurityCfg cfg))
                        (ClusterSSLCert (SecurityCfg cfg))
                        (ClusterSSLKey (SecurityCfg cfg))
  /\ 3000000000
     = wrap_int64 (wrap_int64 (PDServerTimeout (PDClientCfg cfg))
                   * 1000000000)
  /\ (0 <= PDServerTimeout (PDClientCfg cfg) <= 9223372036 ->
      3000000000 = PDServerTimeout (PDClientCfg cfg) * 1000000000)
  /\ inl 1%nat
     = fst (pd_NewClient (Collaborators := Scripted.collab) ["pd0:2379"]
              (mkSecurityOption "" "" "") 3000000000 [Scripted.found 42]).
Proof.
  apply (RegisterMetrics_client_from_configuration (C := Scripted.collab)
           (Scripted.world [Scripted.found 42] "tenant_7" "tikv")
           ["pd0:2379"] (mkSecurityOption "" "" "") 3000000000
           (inl 1%nat)).
  vm_compute. left. reflexivity.
Defined.

(** X7: [RegisterMetrics] treats every ASCII case variant of "tikv" as
    "tikv": with such a store configured it returns the same result and
    performs the same effects as with "tikv" itself. *)
Theorem RegisterMetrics_tikv_case_variants
    `{C : Collaborators} (w : World) (s : string) :
  strings.isASCII s = true ->
  strings.lowerBytes s = "tikv" ->
  let variant := RegisterMetrics
                   (set_config (with_store s (global_config w)) w) in
  let plain := RegisterMetrics
                 (set_config (with_store "tikv" (global_config w)) w) in
  result variant = result plain
  /\ events variant = events plain
  /\ pd_state (final variant) = pd_state (final plain)
  /\ keyspace_label (final variant) = keyspace_label (final plain).
Proof.
  intros Hascii Hlower. cbv zeta.
  assert (Hs : strings.ToLower mapUnicodeLower s = "tikv")
    by (rewrite (ToLower_ascii _ _ Hascii); exact Hlower).
  assert (Huni : String.eqb s "unistore" = false).
  { apply String.eqb_neq. intros ->. discriminate Hlower. }
  apply (RegisterMetrics_store_change
           (set_config (with_store "tikv" (global_config w)) w) s).
  - unfold skipsResolution.
    cbn [set_config global_config with_store Store KeyspaceName].
    now rewrite Hs.
  - cbn [set_config global_config with_store Store]. now rewrite Huni.
Qed.

(** X7 on the scripted service, for the spelling "TiKV". *)
Lemma RegisterMetrics_tikv_case_variants_witness :
  events (RegisterMetrics
            (Scripted.world [Scripted.found 42] "tenant_7" "TiKV"))
  = events (RegisterMetrics
              (Scripted.world [Scripted.found 42] "tenant_7" "tikv")).
Proof.
  apply (RegisterMetrics_tikv_case_variants (C := Scripted.collab)
           (Scripted.world [Scripted.found 42] "tenant_7" "unistore")
           "TiKV");
    reflexivity.
Defined.

(** X8: when an entry point returns nil, the fourteen common initializers
    have each run exactly once, in the order of the source, followed by
    the unistore one when the store is spelled "unistore", and all of
    them under the label in force when the entry point returns. *)
Theorem successful_registration_is_complete
    `{C : Collaborators} (name : string) (w : World)
    (r : option Error * World * list Event) :
  is_entry_run name w r ->
  result r = None ->
  filter is_init (events r)
  = map (fun i => EvInit i (keyspace_label (final r))) common_initializers
    ++ (if String.eqb (Store (global_config w)) "unistore"
        then [EvInit unimetrics_RegisterMetrics (keyspace_label (final r))]
        else []).
Proof.
  intros Hrun Hres.
  exact (entry_run_complete name w r (is_entry_run_shape name w r Hrun) Hres).
Qed.

(** X8 on the scripted service: resolved after one retry. *)
Lemma successful_registration_is_complete_witness :
  let r := RegisterMetrics
             (Scripted.world
                [Scripted.failed Scripted.errKeyspaceNotExist;
                 Scripted.found 5] "tenant_x" "tikv") in
  filter is_init (events r)
  = map (fun i => EvInit (C := Scripted.collab) i (keyspace_label (final r)))
        common_initializers
    ++ (if String.eqb (Store (Scripted.config "tenant_x" "tikv")) "unistore"
        then [EvInit (C := Scripted.collab) unimetrics_RegisterMetrics
                (keyspace_label (final r))]
        else []).
Proof.
  apply (successful_registration_is_complete (C := Scripted.collab)
           "tenant_x"
           (Scripted.world
              [Scripted.failed Scripted.errKeyspaceNotExist;
               Scripted.found 5] "tenant_x" "tikv")).
  - left. split; reflexivity.
  - vm_compute. reflexivity.
Defined.

(** X9: the effects of an entry point come in three phases, in this
    order: resolution (opening the client, lookups, pauses), registration
    (setting the label, initializers), and closing the client. No lookup
    follows an initializer and no initializer follows the close. *)
Theorem registration_phases_in_order
    `{C : Collaborators} (name : string) (w : World)
    (r : option Error * World * list Event) :
  is_entry_run name w r ->
  exists pre reg post,
    events r = pre ++ reg ++ post
    /\ forallb is_resolution_phase pre = true
    /\ forallb is_registration reg = true
    /\ (post = [] \/ exists c, post = [EvClose c]).
Proof.
  intros Hrun.
  exact (entry_run_phases name w r (is_entry_run_shape name w r Hrun)).
Qed.

(** X9 on the scripted service. *)
Lemma registration_phases_in_order_witness :
  exists pre reg post,
    events (RegisterMetricsForBR (C := Scripted.collab) ["pd0:2379"]
              "tenant_7" (Scripted.world [Scripted.found 42] "" "tikv"))
    = pre ++ reg ++ post
    /\ forallb is_resolution_phase pre = true
    /\ forallb is_registration reg = true
    /\ (post = [] \/ exists c, post = [EvClose c]).
Proof.
  apply (registration_phases_in_order (C := Scripted.collab) "tenant_7"
           (Scripted.world [Scripted.found 42] "" "tikv")).
  right. exists ["pd0:2379"]. reflexivity.
Defined.

(** X10: an entry point never changes the global configuration, opens at
    most one client, and sets the keyspace label at most once; when it
    sets it, the value is the numeral of the identifier in metadata that
    a lookup for that keyspace returned with a nil error, and that value
    is the label in force on return; when it does not, the label is left
    as it was. *)
Theorem entry_point_frame
    `{C : Collaborators} (name : string) (w : World)
    (r : option Error * World * list Event) :
  is_entry_run name w r ->
  global_config (final r) = global_config w
  /\ (count is_new_client (events r) <= 1)%nat
  /\ (count is_set_label (events r) <= 1)%nat
  /\ (count is_set_label (events r) = 0%nat ->
      keyspace_label (final r) = keyspace_label w)
  /\ (forall v,
         In (EvSetKeyspaceLabels v) (events r) ->
         keyspace_label (final r) = Some v
         /\ exists c m,
              In (EvLoadKeyspace c name (Some m) None) (events r)
              /\ v = fmt_Sprint (Id m)).
Proof.
  intros Hrun.
  exact (entry_run_frame name w r (is_entry_run_shape name w r Hrun)).
Qed.

(** X10 on the scripted service: a failed resolution leaves the label as
    it was. *)
Lemma entry_point_frame_witness :
  let r := RegisterMetrics
             (Scripted.world [Scripted.failed Scripted.errTransport]
                "tenant_x" "tikv") in
  global_config (final r) = Scripted.config "tenant_x" "tikv"
  /\ (count is_new_client (events r) <= 1)%nat
  /\ (count is_set_label (events r) <= 1)%nat
  /\ (count is_set_label (events r) = 0%nat ->
      keyspace_label (final r) = None)
  /\ (forall v,
         In (EvSetKeyspaceLabels v) (events r) ->
         keyspace_label (final r) = Some v
         /\ exists c m,
              In (EvLoadKeyspace (C := Scripted.collab) c "tenant_x"
                    (Some m) None) (events r)
              /\ v = fmt_Sprint (Id m)).
Proof.
  apply (entry_point_frame (C := Scripted.collab) "tenant_x"
           (Scripted.world [Scripted.failed Scripted.errTransport]
              "tenant_x" "tikv")).
  left. split; reflexivity.
Defined.

(** X11: two registrations with metadata leave the same keyspace label
    exactly when the identifiers in the metadata are equal: different
    keyspaces never share a label. *)
Theorem keyspace_labels_distinct
    `{C : Collaborators} (m1 m2 : KeyspaceMeta) (w1 w2 : World) :
  keyspace_label (final (registerMetrics (Some m1) w1))
  = keyspace_label (final (registerMetrics (Some m2) w2))
  <-> Id m1 = Id m2.
Proof.
  rewrite !registerMetrics_meta. norm_run.
  cbn [set_label keyspace_label]. unfold GetId. split.
  - intros [= Heq]. apply (f_equal decimal_value) in Heq.
    rewrite !fmt_Sprint_decimal in Heq. now injection Heq.
  - now intros ->.
Qed.

(** X12: when the first lookup returns metadata and no error, each entry
    point does exactly this: construct the client, look up once, set the
    label to the numeral of the identifier, run the fan-out under it,
    close the client, return nil. *)
Theorem first_lookup_success_registers_with_label `{C : Collaborators} :
  0 < DefaultMaxRetries ->
  (forall w pdCli p1 p2 k,
      skipsResolution (global_config w) = false ->
      parseError (global_config w) = None ->
      pd_NewClient (parsedAddrs (global_config w))
                   (configuredSecurity (global_config w))
                   (configuredTimeout (global_config w))
                   (pd_state w) = (inl pdCli, p1) ->
      pd_LoadKeyspace pdCli (KeyspaceName (global_config w)) p1
      = ((Some k, None), p2) ->
      RegisterMetrics w
      = (None,
         mkWorld (pd_Close pdCli p2) (global_config w)
                 (Some (fmt_Sprint (Id k))),
         EvNewClient (parsedAddrs (global_config w))
                     (configuredSecurity (global_config w))
                     (configuredTimeout (global_config w)) (inl pdCli)
         :: EvLoadKeyspace pdCli (KeyspaceName (global_config w))
              (Some k) None
         :: EvSetKeyspaceLabels (fmt_Sprint (Id k))
         :: fanout (Some (fmt_Sprint (Id k))) (Store (global_config w))
         ++ [EvClose pdCli]))
  /\ (forall pdAddrs name w pdCli p1 p2 k,
         IsKeyspaceNameEmpty name = false ->
         pd_NewClient pdAddrs emptySecurityOption
                      (wrap_int64 (10 * time_Second)) (pd_state w)
         = (inl pdCli, p1) ->
         pd_LoadKeyspace pdCli name p1 = ((Some k, None), p2) ->
         RegisterMetricsForBR pdAddrs name w
         = (None,
            mkWorld (pd_Close pdCli p2) (global_config w)
                    (Some (fmt_Sprint (Id k))),
            EvNewClient pdAddrs emptySecurityOption
                        (wrap_int64 (10 * time_Second)) (inl pdCli)
            :: EvLoadKeyspace pdCli name (Some k) None
            :: EvSetKeyspaceLabels (fmt_Sprint (Id k))
            :: fanout (Some (fmt_Sprint (Id k))) (Store (global_config w))
            ++ [EvClose pdCli])).
Proof.
  intros Hpos. split.
  - intros w pdCli p1 p2 k Hskip Hparse Hnew Hcall.
    rewrite (RegisterMetrics_client_ok w pdCli p1 Hskip Hparse Hnew).
    cbv zeta.
    rewrite (withClient_first_success pdCli _ (set_pd p1 w) k p2 Hpos Hcall).
    reflexivity.
  - intros pdAddrs name w pdCli p1 p2 k Hskip Hnew Hcall.
    rewrite (RegisterMetricsForBR_client_ok _ _ w pdCli p1 Hskip Hnew).
    cbv zeta.
    rewrite (withClient_first_success pdCli _ (set_pd p1 w) k p2 Hpos Hcall).
    reflexivity.
Qed.

(** X12 on the scripted service: keyspace "tenant_7", identifier 42. *)
Lemma first_lookup_success_registers_with_label_witness :
  RegisterMetrics (Scripted.world [Scripted.found 42] "tenant_7" "tikv")
  = (None,
     mkWorld (C := Scripted.collab) [] (Scripted.config "tenant_7" "tikv")
             (Some "42"),
     EvNewClient (C := Scripted.collab) ["pd0:2379"]
       (mkSecurityOption "" "" "") 3000000000 (inl 1%nat)
     :: EvLoadKeyspace (C := Scripted.collab) 1%nat "tenant_7"
          (Some (mkKeyspaceMeta 42)) None
     :: EvSetKeyspaceLabels "42"
     :: fanout (Some "42") "tikv" ++ [EvClose (C := Scripted.collab) 1%nat]).
Proof.
  apply (proj1 (first_lookup_success_registers_with_label
                  (C := Scripted.collab) eq_refl)
           (Scripted.world [Scripted.found 42] "tenant_7" "tikv")
           1%nat [Scripted.found 42] [] (mkKeyspaceMeta 42));
    reflexivity.
Defined.

(** ** Nil metadata *)

Section NilMetadataFacts.

Context `{C : Collaborators}.

(** With a client open, when the lookup that ends the resolution answers
    nil and no error, after any number of retried failures and whatever
    metadata those carried, the fan-out runs under the label already in
    force. *)
Lemma withClient_nil_metadata (pdCli : Client) (name : string) (w : World)
    (k : nat) (p' p2 : PD) :
  retryable_failures pdCli name k (pd_state w) p' ->
  pd_LoadKeyspace pdCli name p' = ((None, None), p2) ->
  Z.of_nat k < DefaultMaxRetries ->
  withClient pdCli name w
  = (None, set_pd (pd_Close pdCli p2) w,
     events (getKeyspaceMeta pdCli name w)
     ++ fanout (keyspace_label w) (Store (global_config w))
     ++ [EvClose pdCli])
  /\ count is_lookup (events (getKeyspaceMeta pdCli name w)) = S k.
Proof.
  intros Hfail Hlast Hlt.
  destruct (retry_loop_succeeds_after_failures pdCli name RetryInterval
              k (pd_state w) p' Hfail (Z.to_nat DefaultMaxRetries)
              None None w None p2 eq_refl Hlast ltac:(lia))
    as (Hres & Hfin & Hcount).
  rewrite withClient_run. cbv zeta. rewrite getKeyspaceMeta_run.
  cbv zeta. norm_run. rewrite Hres, Hfin, Hcount. cbn [fst snd].
  rewrite registerMetrics_nil. norm_run. split; reflexivity.
Qed.

(** The events of a run that resolved to nil metadata: one client, the
    resolver's lookups and pauses, the fan-out, the close. *)
Lemma nil_metadata_run_events (a : list string) (s : SecurityOption) (t : Z)
    (pdCli : Client) (res : list Event) (label : option string)
    (store : string) (k : nat) :
  forallb is_resolver_event res = true ->
  count is_lookup res = S k ->
  let es := EvNewClient a s t (inl pdCli)
            :: res ++ fanout label store ++ [EvClose pdCli] in
  count is_set_label es = 0%nat
  /\ count is_lookup es = S k
  /\ filter is_init es = fanout label store.
Proof.
  intros Hres Hcount. cbv zeta.
  pose proof (fanout_all_init label store) as Hinit.
  assert (Hcons : forall q l,
             q (EvNewClient a s t (inl pdCli)) = false ->
             count q (EvNewClient a s t (inl pdCli) :: l) = count q l).
  { intros q l Hq. unfold count. cbn [filter]. now rewrite Hq. }
  repeat split.
  - rewrite Hcons by reflexivity. rewrite !count_app.
    rewrite (count_disjoint _ _ _ Hres resolver_not_set_label).
    rewrite (count_disjoint _ _ _ Hinit init_not_set_label). reflexivity.
  - rewrite Hcons by reflexivity. rewrite !count_app, Hcount.
    rewrite (count_disjoint is_lookup _ _ Hinit) by now intros [].
    cbn. lia.
  - cbn [filter is_init]. rewrite !filter_app.
    rewrite (filter_none _ _ _ Hres resolver_not_init).
    rewrite (filter_all _ _ Hinit). cbn. now rewrite app_nil_r.
Qed.

End NilMetadataFacts.

(** C10: when the lookup that ends the resolution answers with neither
    metadata nor an error, on the first attempt or after any number of
    retried failures, whatever metadata those failed answers carried, both
    entry points register the metrics with no label set, close the client
    and return nil. *)
Theorem nil_metadata_registers_without_label `{C : Collaborators} :
  (forall w pdCli p1 k p' p2,
      skipsResolution (global_config w) = false ->
      parseError (global_config w) = None ->
      pd_NewClient (parsedAddrs (global_config w))
                   (configuredSecurity (global_config w))
                   (configuredTimeout (global_config w))
                   (pd_state w) = (inl pdCli, p1) ->
      retryable_failures pdCli (KeyspaceName (global_config w)) k p1 p' ->
      pd_LoadKeyspace pdCli (KeyspaceName (global_config w)) p'
      = ((None, None), p2) ->
      Z.of_nat k < DefaultMaxRetries ->
      let r := RegisterMetrics w in
      result r = None
      /\ final r = set_pd (pd_Close pdCli p2) w
      /\ (exists res,
             events r
             = EvNewClient (parsedAddrs (global_config w))
                           (configuredSecurity (global_config w))
                           (configuredTimeout (global_config w)) (inl pdCli)
               :: res
               ++ fanout (keyspace_label w) (Store (global_config w))
               ++ [EvClose pdCli]
             /\ forallb is_resolver_event res = true)
      /\ count is_set_label (events r) = 0%nat
      /\ count is_lookup (events r) = S k
      /\ filter is_init (events r)
         = fanout (keyspace_label w) (Store (global_config w)))
  /\ (forall pdAddrs name w pdCli p1 k p' p2,
         IsKeyspaceNameEmpty name = false ->
         pd_NewClient pdAddrs emptySecurityOption
                      (wrap_int64 (10 * time_Second)) (pd_state w)
         = (inl pdCli, p1) ->
         retryable_failures pdCli name k p1 p' ->
         pd_LoadKeyspace pdCli name p' = ((None, None), p2) ->
         Z.of_nat k < DefaultMaxRetries ->
         let r := RegisterMetricsForBR pdAddrs name w in
         result r = None
         /\ final r = set_pd (pd_Close pdCli p2) w
         /\ (exists res,
                events r
                = EvNewClient pdAddrs emptySecurityOption
                              (wrap_int64 (10 * time_Second)) (inl pdCli)
                  :: res
                  ++ fanout (keyspace_label w) (Store (global_config w))
                  ++ [EvClose pdCli]
                /\ forallb is_resolver_event res = true)
         /\ count is_set_label (events r) = 0%nat
         /\ count is_lookup (events r) = S k
         /\ filter is_init (events r)
            = fanout (keyspace_label w) (Store (global_config w))).
Proof.
  split.
  - intros w pdCli p1 k p' p2 Hskip Hparse Hnew Hfail Hlast Hlt. cbv zeta.
    rewrite (RegisterMetrics_client_ok w pdCli p1 Hskip Hparse Hnew).
    cbv zeta.
    destruct (withClient_nil_metadata pdCli _ (set_pd p1 w) k p' p2
                Hfail Hlast Hlt) as [Hrun Hcount].
    destruct (getKeyspaceMeta_frame pdCli (KeyspaceName (global_config w))
                (set_pd p1 w)) as (Hev & _ & _).
    cbv zeta in Hev. rewrite Hrun. norm_run.
    cbn [set_pd keyspace_label global_config pd_state].
    destruct (nil_metadata_run_events
                (parsedAddrs (global_config w))
                (configuredSecurity (global_config w))
                (configuredTimeout (global_config w)) pdCli _
                (keyspace_label w) (Store (global_config w)) k Hev Hcount)
      as (Hs & Hl & Hi).
    split; [reflexivity|]. split; [reflexivity|].
    split; [eexists; split; [reflexivity | exact Hev]|].
    split; [exact Hs|]. split; [exact Hl | exact Hi].
  - intros pdAddrs name w pdCli p1 k p' p2 Hskip Hnew Hfail Hlast Hlt.
    cbv zeta.
    rewrite (RegisterMetricsForBR_client_ok _ _ w pdCli p1 Hskip Hnew).
    cbv zeta.
    destruct (withClient_nil_metadata pdCli name (set_pd p1 w) k p' p2
                Hfail Hlast Hlt) as [Hrun Hcount].
    destruct (getKeyspaceMeta_frame pdCli name (set_pd p1 w))
      as (Hev & _ & _).
    cbv zeta in Hev. rewrite Hrun. norm_run.
    cbn [set_pd keyspace_label global_config pd_state].
    destruct (nil_metadata_run_events pdAddrs emptySecurityOption
                (wrap_int64 (10 * time_Second)) pdCli _
                (keyspace_label w) (Store (global_config w)) k Hev Hcount)
      as (Hs & Hl & Hi).
    split; [reflexivity|]. split; [reflexivity|].
    split; [eexists; split; [reflexivity | exact Hev]|].
    split; [exact Hs|]. split; [exact Hl | exact Hi].
Qed.

(** C10 on the scripted service: a retried "not bootstrapped" answer that
    carried metadata 7, then (nil, nil); no label is set. *)
Lemma nil_metadata_registers_without_label_witness :
  let r := RegisterMetricsForBR (C := Scripted.collab) ["pd0:2379"]
             "tenant_x"
             (Scripted.world
                [(Some (mkKeyspaceMeta 7), Some Scripted.errNotBootstrapped);
                 (None, None)] "" "tikv") in
  result r = None
  /\ final r = Scripted.world [] "" "tikv"
  /\ (exists res,
         events r
         = EvNewClient (C := Scripted.collab) ["pd0:2379"]
             emptySecurityOption (wrap_int64 (10 * time_Second)) (inl 1%nat)
           :: res ++ fanout None "tikv"
           ++ [EvClose (C := Scripted.collab) 1%nat]
         /\ forallb is_resolver_event res = true)
  /\ count is_set_label (events r) = 0%nat
  /\ count is_lookup (events r) = 2%nat
  /\ filter is_init (events r) = fanout None "tikv".
Proof.
  apply (proj2 (nil_metadata_registers_without_label
                  (C := Scripted.collab))
           ["pd0:2379"] "tenant_x"
           (Scripted.world
              [(Some (mkKeyspaceMeta 7), Some Scripted.errNotBootstrapped);
               (None, None)] "" "tikv")
           1%nat
           [(Some (mkKeyspaceMeta 7), Some Scripted.errNotBootstrapped);
            (None, None)]
           1%nat [(None, None)] []).
  - reflexivity.
  - reflexivity.
  - eapply (failures_more (C := Scripted.collab)); [reflexivity..|].
    apply (failures_none (C := Scripted.collab)).
  - reflexivity.
  - reflexivity.
Defined.
